(** * The address book of app.py: fields, records, book and command handlers

    A shallow embedding of [app.py] and the properties of its validation,
    lookup and command handlers.

    Conventions of the embedding.
    - A Python [str] is a [string]; its characters are the code points
      U+0000..U+00FF, the range on which [str.isdigit], [str.lower] and the
      [\d] class of [re] are defined below exactly as CPython defines them.
      A [str] with a character from U+0100 on is outside the embedding.
    - A raised exception is an [outcome]; state changes made before the
      [raise] stay, as they do in Python.
    - The book owns its records: a reference to a record of the book is its
      position in [contacts] ([add_record] is only called on a fresh record,
      app.py:105-106, so no record sits at two positions). *)

From Stdlib Require Import ZArith Lia Ascii String.
From stdpp Require Import base tactics option list strings.

Local Open Scope string_scope.
Local Open Scope list_scope.

(** ** Python strings *)

Module Py.

Definition code (c : ascii) : N := N_of_ascii c.

(** [lo <= c <= hi] on code points, the test of a class [[lo-hi]]. *)
Definition in_range (lo hi c : ascii) : bool :=
  ((code lo <=? code c) && (code c <=? code hi))%N.

(** The ASCII digits [0-9]: the decimal digits of the range, and what
    [\d] matches there. *)
Definition is_decimal (c : ascii) : bool := in_range "0" "9" c.

(** [str.isdigit] on one character: Numeric_Type Decimal or Digit, which
    below U+0100 is [0-9] and the superscripts U+00B2, U+00B3, U+00B9. *)
Definition char_isdigit (c : ascii) : bool :=
  is_decimal c
  || (code c =? 178)%N || (code c =? 179)%N || (code c =? 185)%N.

Fixpoint all_chars (p : ascii -> bool) (s : string) : bool :=
  match s with
  | EmptyString => true
  | String c s' => p c && all_chars p s'
  end.

(** [s.isdigit()]: at least one character, and all of them digits. *)
Definition isdigit (s : string) : bool :=
  match s with
  | EmptyString => false
  | _ => all_chars char_isdigit s
  end.

Definition len (s : string) : nat := String.length s.

(** [str.lower] on one character: A-Z, and U+00C0..U+00DE but for the
    multiplication sign U+00D7, move up by 32. *)
Definition char_lower (c : ascii) : ascii :=
  let n := code c in
  if ((65 <=? n) && (n <=? 90)
      || (192 <=? n) && (n <=? 222) && negb (n =? 215))%N
  then ascii_of_N (n + 32) else c.

Fixpoint lower (s : string) : string :=
  match s with
  | EmptyString => EmptyString
  | String c s' => String (char_lower c) (lower s')
  end.

(** [sep.join(l)] *)
Fixpoint join (sep : string) (l : list string) : string :=
  match l with
  | [] => ""
  | [x] => x
  | x :: l' => x +:+ sep +:+ join sep l'
  end.

(** [str.isspace] on one character. *)
Definition char_isspace (c : ascii) : bool :=
  let n := code c in
  ((9 <=? n) && (n <=? 13) || (28 <=? n) && (n <=? 32)
   || (n =? 133) || (n =? 160))%N.

Fixpoint lstrip (s : string) : string :=
  match s with
  | String c s' => if char_isspace c then lstrip s' else s
  | EmptyString => EmptyString
  end.

Definition rstrip (s : string) : string :=
  String.rev (lstrip (String.rev s)).

Definition strip (s : string) : string := rstrip (lstrip s).

Definition digit_value (c : ascii) : Z := Z.of_N (code c) - 48.

Fixpoint decimal (acc : Z) (s : string) : Z :=
  match s with
  | EmptyString => acc
  | String c s' => decimal (10 * acc + digit_value c) s'
  end.

(** The line feed, ["\n"]. *)
Definition newline : string := String (ascii_of_N 10) "".

Definition digit_char (n : Z) : ascii := ascii_of_N (Z.to_N (48 + n)).

(** ["%02d" % n] and ["%04d" % n] for [0 <= n] below 100 and 10000. *)
Definition zfill2 (n : Z) : string :=
  String (digit_char (n / 10)) (String (digit_char (n mod 10)) "").

Definition zfill4 (n : Z) : string :=
  String (digit_char (n / 1000))
    (String (digit_char (n / 100 mod 10))
       (String (digit_char (n / 10 mod 10))
          (String (digit_char (n mod 10)) ""))).

End Py.

(** ** Exceptions *)

Inductive exn : Type :=
| ValueError (msg : string)
| IndexError (msg : string).

(** [str(e)] *)
Definition exn_str (e : exn) : string :=
  match e with ValueError msg | IndexError msg => msg end.

Inductive outcome (A : Type) : Type :=
| Return (a : A)
| Raise (e : exn).
Arguments Return {A} a.
Arguments Raise {A} e.

(** ** Fields *)

Record Name : Type := mkName { name_value : string }.

Record Phone : Type := mkPhone { phone_value : string }.

(** [Name.__init__] *)
Definition Name_init (value : string) : Name := mkName value.

(** [Phone.__init__] *)
Definition Phone_init (value : string) : outcome Phone :=
  if negb (Py.len value =? 10)%nat || negb (Py.isdigit value)
  then Raise (ValueError "Phone number must be a 10-digit number.")
  else Return (mkPhone value).

(** ** Dates: [datetime.strptime] and [strftime] with the format [%d.%m.%Y] *)

(** A [datetime] made by [strptime] from [%d.%m.%Y]: the time of day is
    midnight and is left out. *)
Record datetime : Type := mkDate { year : Z; month : Z; day : Z }.

Module Re.

(** The fragment of [re] patterns that [_strptime.TimeRE] builds for the
    directives [%d], [%m] and [%Y]. *)
Inductive regex : Type :=
| Chr (c : ascii)            (* one given character *)
| Range (lo hi : ascii)      (* [lo-hi] *)
| Digit                      (* \d *)
| Seq (r1 r2 : regex)        (* r1 r2 *)
| Alt (r1 r2 : regex).       (* r1|r2, r1 tried first *)

Definition one_char (p : ascii -> bool) (s : string)
  : list (string * string) :=
  match s with
  | String a s' => if p a then [(String a "", s')] else []
  | EmptyString => []
  end.

(** Every way [r] matches a prefix of [s], as (matched text, rest), in the
    order in which the backtracking matcher tries them. *)
Fixpoint matches (r : regex) (s : string) : list (string * string) :=
  match r with
  | Chr c => one_char (Ascii.eqb c) s
  | Range lo hi => one_char (Py.in_range lo hi) s
  | Digit => one_char Py.is_decimal s
  | Seq r1 r2 =>
      '(m1, s1) ← matches r1 s;
      '(m2, s2) ← matches r2 s1;
      [(m1 +:+ m2, s2)]
  | Alt r1 r2 => matches r1 s ++ matches r2 s
  end.

(** A compiled format: named groups and the escaped characters between. *)
Inductive item : Type :=
| Group (r : regex)
| Literal (c : ascii).

(** Every match of the items in a row, as (texts of the groups, rest). *)
Fixpoint match_items (p : list item) (s : string)
  : list (list string * string) :=
  match p with
  | [] => [([], s)]
  | Group r :: p' =>
      '(m, s1) ← matches r s;
      '(gs, s2) ← match_items p' s1;
      [(m :: gs, s2)]
  | Literal c :: p' =>
      '(_, s1) ← matches (Chr c) s;
      match_items p' s1
  end.

End Re.

Module Strptime.
Import Re.

(** ['d': r"(?P<d>3[0-1]|[1-2]\d|0[1-9]|[1-9]| [1-9])"] *)
Definition re_d : regex :=
  Alt (Seq (Chr "3") (Range "0" "1"))
    (Alt (Seq (Range "1" "2") Digit)
       (Alt (Seq (Chr "0") (Range "1" "9"))
          (Alt (Range "1" "9")
             (Seq (Chr " ") (Range "1" "9"))))).

(** ['m': r"(?P<m>1[0-2]|0[1-9]|[1-9])"] *)
Definition re_m : regex :=
  Alt (Seq (Chr "1") (Range "0" "2"))
    (Alt (Seq (Chr "0") (Range "1" "9"))
       (Range "1" "9")).

(** ['Y': r"(?P<Y>\d\d\d\d)"] *)
Definition re_Y : regex := Seq Digit (Seq Digit (Seq Digit Digit)).

(** [TimeRE.pattern("%d.%m.%Y")]: the dots are escaped, the directives
    replaced by their groups. *)
Definition pattern : list item :=
  [Group re_d; Literal "."; Group re_m; Literal "."; Group re_Y].

(** [int(s)] on the text of a group: blanks around are dropped, then
    ASCII digits are read in base ten (the sign and the underscores that
    [int] also takes cannot be in a group of [pattern]). *)
Definition int (s : string) : outcome Z :=
  let t := Py.strip s in
  if Py.isdigit t && Py.all_chars Py.is_decimal t
  then Return (Py.decimal 0 t)
  else Raise (ValueError "invalid literal for int() with base 10").

(** [datetime._is_leap] *)
Definition is_leap (y : Z) : bool :=
  (y mod 4 =? 0)%Z && (negb (y mod 100 =? 0)%Z || (y mod 400 =? 0)%Z).

(** [datetime._days_in_month], with the table [_DAYS_IN_MONTH] *)
Definition days_in_month (y m : Z) : Z :=
  if (m =? 2)%Z && is_leap y then 29%Z
  else nth (Z.to_nat m) [0; 31; 28; 31; 30; 31; 30; 31; 31; 30; 31; 30; 31]%Z 0%Z.

(** [datetime._check_date_fields], with [MINYEAR = 1], [MAXYEAR = 9999] *)
Definition check_date_fields (y m d : Z) : outcome datetime :=
  if negb ((1 <=? y) && (y <=? 9999))%Z
  then Raise (ValueError "year must be in 1..9999")
  else if negb ((1 <=? m) && (m <=? 12))%Z
  then Raise (ValueError "month must be in 1..12")
  else if negb ((1 <=? d) && (d <=? days_in_month y m))%Z
  then Raise (ValueError "day is out of range for month")
  else Return (mkDate y m d).

(** [datetime.strptime(data_string, "%d.%m.%Y")]: the first match of the
    pattern at the start of the string is taken; it has to reach the end
    of the string; the groups are read as integers and have to make a
    date.  (The texts of the [ValueError]s are shortened: [Birthday]
    replaces them.)

    On the strings of this development [\d] and [int] know the digits
    0-9 only, as CPython does below U+0100.  On a wider [str] they also
    take the decimal digits of other scripts, where the pattern has [\d]
    (the second digit of a day from 10 to 29, the four of the year), and
    read them as the same numbers: what [Birthday] accepts is stated
    below for ASCII strings, and nothing is said of the others. *)
Definition strptime (data_string : string) : outcome datetime :=
  match match_items pattern data_string with
  | [] => Raise (ValueError "time data does not match format")
  | (groups, rest) :: _ =>
      if negb (rest =? "")
      then Raise (ValueError "unconverted data remains")
      else
        match groups with
        | [d; m; y] =>
            match int d, int m, int y with
            | Return dv, Return mv, Return yv => check_date_fields yv mv dv
            | Raise e, _, _ | _, Raise e, _ | _, _, Raise e => Raise e
            end
        | _ => Raise (ValueError "time data does not match format")
        end
  end.

(** How the C library that [strftime] hands the format to writes [%Y]:
    on four digits, as the library documents it (0001, ..., 9999), or
    as the plain number, as glibc does (1, ..., 9999).  From 1000 on
    the two agree. *)
Inductive year_style : Type := FourDigits | Plain.

Definition format_Y (st : year_style) (y : Z) : string :=
  match st with
  | FourDigits => Py.zfill4 y
  | Plain =>
      if (y <? 10)%Z then String (Py.digit_char y) ""
      else if (y <? 100)%Z then Py.zfill2 y
      else if (y <? 1000)%Z
      then String (Py.digit_char (y / 100)) (Py.zfill2 (y mod 100))
      else Py.zfill4 y
  end.

(** [dt.strftime('%d.%m.%Y')]: day and month on two digits, then the
    year. *)
Definition strftime (st : year_style) (dt : datetime) : string :=
  Py.zfill2 (day dt) +:+ "." +:+ Py.zfill2 (month dt) +:+ "."
  +:+ format_Y st (year dt).

End Strptime.

Record Birthday : Type := mkBirthday { birthday_value : datetime }.

(** [Birthday.__init__] *)
Definition Birthday_init (value : string) : outcome Birthday :=
  match Strptime.strptime value with
  | Return dt => Return (mkBirthday dt)
  | Raise (ValueError _) =>
      Raise (ValueError "Invalid date format. Use DD.MM.YYYY")
  | Raise e => Raise e
  end.

(** ** State and exceptions

    A method or handler is a function of the state it works on that gives
    the state it leaves and what it returned or raised. *)

Definition SE (S A : Type) : Type := S -> S * outcome A.

Definition ret {S A : Type} (a : A) : SE S A := fun s => (s, Return a).

Definition raise {S A : Type} (e : exn) : SE S A := fun s => (s, Raise e).

Definition bind {S A B : Type} (m : SE S A) (k : A -> SE S B) : SE S B :=
  fun s =>
    match m s with
    | (s', Return a) => k a s'
    | (s', Raise e) => (s', Raise e)
    end.

Definition get {S : Type} : SE S S := fun s => (s, Return s).

Definition modify {S : Type} (f : S -> S) : SE S unit :=
  fun s => (f s, Return tt).

(** A call that works on no state: a constructor that returns or raises. *)
Definition call {S A : Type} (o : outcome A) : SE S A := fun s => (s, o).

Declare Scope se_scope.
Delimit Scope se_scope with se.
Notation "x <- m ;; k" := (bind m (fun x => k))
  (at level 20, m at level 99, k at level 200) : se_scope.
Notation "m ;; k" := (bind m (fun _ => k))
  (at level 100, k at level 200, right associativity) : se_scope.
Local Open Scope se_scope.

(** ** Record *)

Record RecordT : Type := mkRecord {
  record_name : Name;
  record_phones : list Phone;
  record_birthday : option Birthday
}.

(** [Record.__init__] *)
Definition Record_init (name : string) : RecordT :=
  {| record_name := Name_init name;
     record_phones := [];
     record_birthday := None |}.

#[global] Instance RecordT_inhabited : Inhabited RecordT :=
  populate (Record_init "").

Definition set_phones (ps : list Phone) (self : RecordT) : RecordT :=
  {| record_name := record_name self;
     record_phones := ps;
     record_birthday := record_birthday self |}.

Definition set_birthday (b : option Birthday) (self : RecordT) : RecordT :=
  {| record_name := record_name self;
     record_phones := record_phones self;
     record_birthday := b |}.

(** The loop of [Record.add_phone] over [self.phones]. *)
Fixpoint check_not_exists (value : string) (ps : list Phone) : outcome unit :=
  match ps with
  | [] => Return tt
  | phone :: ps' =>
      if String.eqb (phone_value phone) value
      then Raise (ValueError "Phone number already exists.")
      else check_not_exists value ps'
  end.

(** [Record.add_phone] *)
Definition Record_add_phone (value : string) : SE RecordT unit :=
  self <- get ;;
  call (check_not_exists value (record_phones self)) ;;
  phone <- call (Phone_init value) ;;
  modify (fun self => set_phones (record_phones self ++ [phone]) self).

(** [Record.add_birthday] *)
Definition Record_add_birthday (value : string) : SE RecordT unit :=
  b <- call (Birthday_init value) ;;
  modify (set_birthday (Some b)).

(** ** AddressBook *)

Record AddressBook : Type := mkBook { contacts : list RecordT }.

(** [AddressBook.__init__] *)
Definition AddressBook_init : AddressBook := mkBook [].

(** A reference to a record of the book: its position in [contacts]. *)
Definition ref : Type := nat.

(** [AddressBook.add_record]; the result is the reference under which the
    record is now in the book. *)
Definition AddressBook_add_record (record : RecordT) : SE AddressBook ref :=
  fun self =>
    (mkBook (contacts self ++ [record]), Return (length (contacts self))).

(** The loop of [AddressBook.find], from position [i] on. *)
Fixpoint find_from (i : nat) (cs : list RecordT) (name : string)
  : option ref :=
  match cs with
  | [] => None
  | contact :: cs' =>
      if String.eqb (Py.lower (name_value (record_name contact)))
                    (Py.lower name)
      then Some i
      else find_from (S i) cs' name
  end.

(** [AddressBook.find]; [None] is Python's [None]. *)
Definition AddressBook_find (name : string) : SE AddressBook (option ref) :=
  fun self => (self, Return (find_from 0 (contacts self) name)).

(** The record a reference stands for. *)
Definition deref (r : ref) : SE AddressBook RecordT :=
  fun book => (book, Return (contacts book !!! r)).

(** A method call or an assignment on the record a reference stands for:
    the record of the book changes in place. *)
Definition on_record {A : Type} (r : ref) (m : SE RecordT A)
  : SE AddressBook A :=
  fun book =>
    let '(record', o) := m (contacts book !!! r) in
    (mkBook (<[r := record']> (contacts book)), o).

(** ** Command handlers *)

(** What a handler hands back to the driver: a string or the list of the
    records. *)
Inductive value : Type :=
| Str (s : string)
| RecordList (l : list RecordT).

(** The decorator [input_error]: whatever the function raises is caught and
    returned as a string. *)
Definition input_error (func : SE AddressBook value)
  : AddressBook -> AddressBook * value :=
  fun book =>
    match func book with
    | (book', Return v) => (book', v)
    | (book', Raise e) => (book', Str ("Error: " +:+ exn_str e))
    end.

(** The body of [add_contact]. *)
Definition add_contact_func (args : list string) : SE AddressBook value :=
  if (length args <? 2)%nat
  then ret (Str "Invalid command. Use 'add [name] [phone]'.")
  else
    match args with
    | name :: phone :: _ =>
        found <- AddressBook_find name ;;
        rm <- match found with
              | None =>
                  record <- AddressBook_add_record (Record_init name) ;;
                  ret (record, "Contact added.")
              | Some record => ret (record, "Contact updated.")
              end ;;
        let '(record, message) := rm in
        if negb (phone =? "")
        then on_record record (Record_add_phone phone) ;;
             ret (Str (message +:+ " Phone number: " +:+ phone))
        else ret (Str message)
    | _ => raise (ValueError "not enough values to unpack")
    end.

Definition add_contact (args : list string) := input_error (add_contact_func args).

(** The body of [change_contact]. *)
Definition change_contact_func (args : list string) : SE AddressBook value :=
  if negb (length args =? 2)%nat
  then ret (Str "Invalid command. Please use 'change [name] [new_phone]'.")
  else
    match args with
    | [name; new_phone] =>
        found <- AddressBook_find name ;;
        match found with
        | Some record =>
            on_record record (modify (set_phones [])) ;;
            on_record record (Record_add_phone new_phone) ;;
            ret (Str ("Phone number changed for " +:+ name +:+ "."))
        | None => ret (Str ("Contact " +:+ name +:+ " not found."))
        end
    | _ => raise (ValueError "wrong number of values to unpack")
    end.

Definition change_contact (args : list string) := input_error (change_contact_func args).

(** The body of [show_phone]. *)
Definition show_phone_func (args : list string) : SE AddressBook value :=
  if negb (length args =? 1)%nat
  then ret (Str "Invalid command. Use 'phone [name]'.")
  else
    match args with
    | name :: _ =>
        found <- AddressBook_find name ;;
        match found with
        | Some record =>
            r <- deref record ;;
            match record_phones r with
            | _ :: _ =>
                ret (Str (name +:+ "'s phone number is: "
                          +:+ Py.join ", " (phone_value <$> record_phones r)))
            | [] => ret (Str (name +:+ " doesn't have a phone number set."))
            end
        | None => ret (Str ("Contact " +:+ name +:+ " not found."))
        end
    | [] => raise (IndexError "list index out of range")
    end.

Definition show_phone (args : list string) := input_error (show_phone_func args).

(** The body of [show_all_contacts]. *)
Definition show_all_contacts_func : SE AddressBook value :=
  book <- get ;;
  ret (RecordList (contacts book)).

Definition show_all_contacts := input_error show_all_contacts_func.

(** The body of [add_birthday]. *)
Definition add_birthday_func (args : list string) : SE AddressBook value :=
  if negb (length args =? 2)%nat
  then ret (Str "Invalid command. Use 'add-birthday [name] [date]'.")
  else
    match args with
    | [name; date] =>
        found <- AddressBook_find name ;;
        match found with
        | Some record =>
            on_record record (Record_add_birthday date) ;;
            ret (Str ("Birthday added for " +:+ name +:+ "."))
        | None => ret (Str ("Contact " +:+ name +:+ " not found."))
        end
    | _ => raise (ValueError "wrong number of values to unpack")
    end.

Definition add_birthday (args : list string) := input_error (add_birthday_func args).

Section Platform.

(** The way the platform writes [%Y]. *)
Variable st : Strptime.year_style.

(** The body of [show_birthday]. *)
Definition show_birthday_func (args : list string) : SE AddressBook value :=
  if negb (length args =? 1)%nat
  then ret (Str "Invalid command. Use 'show-birthday [name]'.")
  else
    match args with
    | name :: _ =>
        found <- AddressBook_find name ;;
        match found with
        | Some record =>
            r <- deref record ;;
            match record_birthday r with
            | Some b =>
                ret (Str (name +:+ "'s birthday is: "
                          +:+ Strptime.strftime st (birthday_value b)))
            | None => ret (Str (name +:+ " doesn't have a birthday set."))
            end
        | None => ret (Str ("Contact " +:+ name +:+ " not found."))
        end
    | [] => raise (IndexError "list index out of range")
    end.

Definition show_birthday (args : list string) :=
  input_error (show_birthday_func args).

(** The loop of [birthdays] over [book.contacts]. *)
Fixpoint all_birthdays (cs : list RecordT) : list string :=
  match cs with
  | [] => []
  | contact :: cs' =>
      match record_birthday contact with
      | Some b =>
          (name_value (record_name contact) +:+ ": "
           +:+ Strptime.strftime st (birthday_value b)) :: all_birthdays cs'
      | None => all_birthdays cs'
      end
  end.

(** The body of [birthdays]. *)
Definition birthdays_func : SE AddressBook value :=
  book <- get ;;
  match all_birthdays (contacts book) with
  | (_ :: _) as found => ret (Str (Py.join Py.newline found))
  | [] => ret (Str "No birthdays found.")
  end.

Definition birthdays := input_error birthdays_func.

(** The handlers that [main] calls with the arguments of the line and the
    book. *)
Inductive handler : Type :=
| Add | Change | ShowPhone | All | AddBirthday | ShowBirthday | Birthdays.

(** The undecorated function behind a handler. *)
Definition func_of (h : handler) (args : list string)
  : SE AddressBook value :=
  match h with
  | Add => add_contact_func args
  | Change => change_contact_func args
  | ShowPhone => show_phone_func args
  | All => show_all_contacts_func
  | AddBirthday => add_birthday_func args
  | ShowBirthday => show_birthday_func args
  | Birthdays => birthdays_func
  end.

Definition invoke (h : handler) (args : list string)
  : AddressBook -> AddressBook * value :=
  match h with
  | Add => add_contact args
  | Change => change_contact args
  | ShowPhone => show_phone args
  | All => show_all_contacts
  | AddBirthday => add_birthday args
  | ShowBirthday => show_birthday args
  | Birthdays => birthdays
  end.

(** The argument counts a handler takes; the others get its usage
    string. *)
Definition arity_ok (h : handler) (n : nat) : bool :=
  match h with
  | Add => (2 <=? n)%nat
  | Change | AddBirthday => (n =? 2)%nat
  | ShowPhone | ShowBirthday => (n =? 1)%nat
  | All | Birthdays => true
  end.

Definition usage (h : handler) : string :=
  match h with
  | Add => "Invalid command. Use 'add [name] [phone]'."
  | Change => "Invalid command. Please use 'change [name] [new_phone]'."
  | ShowPhone => "Invalid command. Use 'phone [name]'."
  | AddBirthday => "Invalid command. Use 'add-birthday [name] [date]'."
  | ShowBirthday => "Invalid command. Use 'show-birthday [name]'."
  | All | Birthdays => ""
  end.

End Platform.

(** ** Vocabulary of the properties *)

(** Ten times the superscript two, U+00B2. *)
Definition superscript_twos : string :=
  string_of_list_ascii (replicate 10 (ascii_of_N 178)).

(** The test of [AddressBook.find]: the names are equal once in lower
    case. *)
Definition name_matches (name : string) (r : RecordT) : Prop :=
  Py.lower (name_value (record_name r)) = Py.lower name.

(** The book with one record replaced. *)
Definition with_record (r : ref) (record : RecordT) (book : AddressBook)
  : AddressBook :=
  mkBook (<[r := record]> (contacts book)).

Import Re Strptime.

(** The texts that the group of [%d] takes: 01-31, 1-9, and 1-9 after a
    space. *)
Definition day_text (t : string) : bool :=
  match t with
  | String a "" => Py.in_range "1" "9" a
  | String a (String b "") =>
      Ascii.eqb "3" a && Py.in_range "0" "1" b
      || Py.in_range "1" "2" a && Py.is_decimal b
      || Ascii.eqb "0" a && Py.in_range "1" "9" b
      || Ascii.eqb " " a && Py.in_range "1" "9" b
  | _ => false
  end.

(** The texts a pattern stands for. *)
Fixpoint denotes (r : regex) (m : string) : Prop :=
  match r with
  | Chr c => m = String c ""
  | Range lo hi => exists a, m = String a "" /\ Py.in_range lo hi a = true
  | Digit => exists a, m = String a "" /\ Py.is_decimal a = true
  | Seq r1 r2 => exists m1 m2, m = m1 +:+ m2 /\ denotes r1 m1 /\ denotes r2 m2
  | Alt r1 r2 => denotes r1 m \/ denotes r2 m
  end.

(** The texts that the group of [%m] takes: 01-12 and 1-9. *)
Definition month_text (t : string) : bool :=
  match t with
  | String a "" => Py.in_range "1" "9" a
  | String a (String b "") =>
      Ascii.eqb "1" a && Py.in_range "0" "2" b
      || Ascii.eqb "0" a && Py.in_range "1" "9" b
  | _ => false
  end.

(** The texts that the group of [%Y] takes: four decimal digits. *)
Definition year_text (t : string) : bool :=
  match t with
  | String a (String b (String c (String d ""))) =>
      Py.is_decimal a && Py.is_decimal b && Py.is_decimal c && Py.is_decimal d
  | _ => false
  end.

(** No character of the text is a dot. *)
Definition no_dot (t : string) : bool :=
  Py.all_chars (fun c => negb (Ascii.eqb c ".")) t.

(** A date of the calendar, from the year 1 to the year 9999. *)
Definition valid_date (dt : datetime) : Prop :=
  (1 <= year dt <= 9999 /\ 1 <= month dt <= 12
   /\ 1 <= day dt <= days_in_month (year dt) (month dt))%Z.

(** The form DD.MM.YYYY: two, two and four decimal digits, with dots
    between. *)
Definition strict_form (s : string) : bool :=
  match s with
  | String d1 (String d2 (String p1 (String m1 (String m2 (String p2
      (String y1 (String y2 (String y3 (String y4 ""))))))))) =>
      Py.is_decimal d1 && Py.is_decimal d2 && Ascii.eqb p1 "."
      && Py.is_decimal m1 && Py.is_decimal m2 && Ascii.eqb p2 "."
      && Py.is_decimal y1 && Py.is_decimal y2 && Py.is_decimal y3
      && Py.is_decimal y4
  | _ => false
  end.

(** ** The rest of app.py: the words of a line, the view and the driver *)

(** The loop of [str.split()]: [cur] is the word being read. *)
Fixpoint split_from (cur : string) (s : string) : list string :=
  match s with
  | EmptyString => if cur =? "" then [] else [cur]
  | String c s' =>
      if Py.char_isspace c
      then (if cur =? "" then split_from "" s' else cur :: split_from "" s')
      else split_from (cur +:+ String c "") s'
  end.

(** [parse_input]: [user_input.split()], the words between blanks. *)
Definition parse_input (user_input : string) : list string :=
  split_from "" user_input.

(** [hello], [close], [exit] and [help_command] *)
Definition hello : string := "Hello! How can I help you?".

Definition close : string := "Goodbye!".

Definition exit : string := "Goodbye!".

Definition help_command : string :=
  Py.join Py.newline
    ["hello - Greetings from the bot";
     "add [name] [phone] - Add a contact with a phone number";
     "change [name] [new_phone] - Change the phone number of an existing contact";
     "phone [name] - Show the phone number of a contact";
     "all - Show all contacts";
     "add-birthday [name] [date] - Add a birthday to a contact";
     "show-birthday [name] - Show the birthday of a contact";
     "birthdays - Show all birthdays";
     "close, exit - Exit the program";
     "help - Show this help message"].

(** The loop of [ConsoleView.display_contacts]: one line for each record. *)
Fixpoint contact_info (st : Strptime.year_style) (contacts : list RecordT)
  : list string :=
  match contacts with
  | [] => []
  | contact :: contacts' =>
      let phones :=
        match record_phones contact with
        | _ :: _ => Py.join ", " (phone_value <$> record_phones contact)
        | [] => "No phone"
        end in
      let birthday :=
        match record_birthday contact with
        | Some b => Strptime.strftime st (birthday_value b)
        | None => "No birthday"
        end in
      (name_value (record_name contact) +:+ ": " +:+ phones
       +:+ ", Birthday: " +:+ birthday) :: contact_info st contacts'
  end.

(** [ConsoleView.display_contacts] on a list of records: what it prints. *)
Definition display_contacts (st : Strptime.year_style)
    (contacts : list RecordT) : string :=
  match contacts with
  | _ :: _ => Py.join Py.newline (contact_info st contacts)
  | [] => "Address book is empty."
  end.

(** What the driver does that can be seen from outside, as the calls it
    makes: it prints, asks for a line, calls the view with what a handler
    returned, calls [save_data] with the book. *)
Inductive event : Type :=
| PrintLine (text : string)
| Input (prompt : string)
| DisplayMessage (message : value)
| DisplayContacts (contacts : value)
| SaveData (book : AddressBook).

(** What the console view prints for an event, where it can: a message has
    to be a string and contacts a list of records. *)
Definition console (st : Strptime.year_style) (e : event) : option string :=
  match e with
  | PrintLine text => Some text
  | Input prompt => Some prompt
  | DisplayMessage (Str message) => Some message
  | DisplayContacts (RecordList contacts) => Some (display_contacts st contacts)
  | DisplayMessage (RecordList _) | DisplayContacts (Str _) | SaveData _ => None
  end.

(** What the world answers to a call of [print], [input] or [save_data]:
    [None] when the call returns, the name of the exception when it raises
    (an [OSError] of [open], an error of [pickle.dump], a closed output,
    ...).  The answer may depend on all the calls made before. *)
Definition world : Type := list event -> event -> option string.

(** The world in which every call returns. *)
Definition calm : world := fun _ _ => None.

(** What can leave a turn of the loop: an exception of the code of [main]
    and of the handlers, or the exception of a call of the world. *)
Inductive failure : Type :=
| Exception (e : exn)
| IOFailure (name : string).

(** How one turn of the loop of [main] ends. *)
Inductive next : Type :=
| Continue
| Break
| Uncaught (f : failure).

(** A call of the view, the last thing a turn does that goes on: the call
    is made, and the turn goes on when it returns. *)
Definition display (w : world) (book : AddressBook) (e : event)
    (trace : list event) : AddressBook * list event * next :=
  (book, trace ++ [e],
   match w trace e with
   | Some name => Uncaught (IOFailure name)
   | None => Continue
   end).

(** One turn of the loop of [main], after the line is read; [trace] holds
    the calls made so far. *)
Definition main_step (w : world) (st : Strptime.year_style)
    (user_input : string) (book : AddressBook) (trace : list event)
  : AddressBook * list event * next :=
  if Py.strip user_input =? ""
  then display w book (DisplayMessage (Str "You didn't enter any command."))
         trace
  else
    match parse_input user_input with
    | command :: args =>
        if (command =? "close") || (command =? "exit")
        then
          match w trace (SaveData book) with
          | Some name =>
              (book, trace ++ [SaveData book], Uncaught (IOFailure name))
          | None =>
              (book,
               trace ++ [SaveData book; DisplayMessage (Str "Goodbye!")],
               match w (trace ++ [SaveData book])
                       (DisplayMessage (Str "Goodbye!")) with
               | Some name => Uncaught (IOFailure name)
               | None => Break
               end)
          end
        else if command =? "hello"
        then display w book (DisplayMessage (Str "How can I help you?")) trace
        else if command =? "add"
        then let '(book', v) := add_contact args book in
             display w book' (DisplayMessage v) trace
        else if command =? "change"
        then let '(book', v) := change_contact args book in
             display w book' (DisplayMessage v) trace
        else if command =? "phone"
        then let '(book', v) := show_phone args book in
             display w book' (DisplayMessage v) trace
        else if command =? "all"
        then let '(book', contacts) := show_all_contacts book in
             display w book' (DisplayContacts contacts) trace
        else if command =? "add-birthday"
        then let '(book', v) := add_birthday args book in
             display w book' (DisplayMessage v) trace
        else if command =? "show-birthday"
        then let '(book', v) := show_birthday st args book in
             display w book' (DisplayMessage v) trace
        else if command =? "birthdays"
        then let '(book', v) := birthdays st book in
             display w book' (DisplayMessage v) trace
        else if command =? "help"
        then display w book (DisplayMessage (Str help_command)) trace
        else display w book
               (DisplayMessage
                  (Str "Invalid command. Type 'help' to see the list of available commands."))
               trace
    | [] =>
        (book, trace, Uncaught (Exception (ValueError "not enough values to unpack")))
    end.

(** How [main] ends: by [close] or [exit], by what left a turn or a call of
    the world, or because [input] has no line left to read (its [EOFError]
    then leaves [main]). *)
Inductive ending : Type :=
| Closed
| Crashed (f : failure)
| EndOfInput.

(** The loop of [main] on the lines that [input] will read. *)
Fixpoint main_loop (w : world) (st : Strptime.year_style)
    (inputs : list string) (book : AddressBook) (trace : list event)
  : AddressBook * list event * ending :=
  match w trace (Input "Enter a command: ") with
  | Some name =>
      (book, trace ++ [Input "Enter a command: "], Crashed (IOFailure name))
  | None =>
      match inputs with
      | [] => (book, trace ++ [Input "Enter a command: "], EndOfInput)
      | user_input :: inputs' =>
          let '(book', trace', nxt) :=
            main_step w st user_input book
              (trace ++ [Input "Enter a command: "]) in
          match nxt with
          | Continue => main_loop w st inputs' book' trace'
          | Break => (book', trace', Closed)
          | Uncaught f => (book', trace', Crashed f)
          end
      end
  end.

(** [main], from the book that [load_data] gave. *)
Definition main (w : world) (st : Strptime.year_style)
    (loaded : AddressBook) (inputs : list string)
  : AddressBook * list event * ending :=
  match w [] (PrintLine "Welcome to the assistant bot!") with
  | Some name =>
      (loaded, [PrintLine "Welcome to the assistant bot!"],
       Crashed (IOFailure name))
  | None =>
      main_loop w st inputs loaded [PrintLine "Welcome to the assistant bot!"]
  end.

(** ** Vocabulary of the further properties *)

(** What a handler can do to a record. *)
Inductive record_step (rec : RecordT) : RecordT -> Prop :=
| step_same : record_step rec rec
| step_add_phone (v : string) :
    Phone_init v = Return (mkPhone v) ->
    (forall q, q ∈ record_phones rec -> phone_value q <> v) ->
    record_step rec (set_phones (record_phones rec ++ [mkPhone v]) rec)
| step_clear_phones : record_step rec (set_phones [] rec)
| step_one_phone (v : string) :
    Phone_init v = Return (mkPhone v) ->
    record_step rec (set_phones [mkPhone v] rec)
| step_birthday (date : string) (b : Birthday) :
    Birthday_init date = Return b ->
    record_step rec (set_birthday (Some b) rec).

(** What a handler can do to the book. *)
Inductive book_step (book : AddressBook) : AddressBook -> Prop :=
| step_none : book_step book book
| step_record (r : ref) (rec rec' : RecordT) :
    contacts book !! r = Some rec ->
    record_step rec rec' ->
    book_step book (with_record r rec' book)
| step_new (name : string) (rec' : RecordT) :
    (forall c, c ∈ contacts book -> ~ name_matches name c) ->
    record_step (Record_init name) rec' ->
    book_step book (mkBook (contacts book ++ [rec'])).

(** The name of a record as [find] compares it. *)
Definition key (r : RecordT) : string :=
  Py.lower (name_value (record_name r)).

(** The phones of a record are ones that [Phone] takes and differ from one
    another; its birthday, if any, is a date of the calendar. *)
Definition record_ok (r : RecordT) : Prop :=
  NoDup (phone_value <$> record_phones r)
  /\ Forall (fun p => Phone_init (phone_value p) = Return p) (record_phones r)
  /\ forall b, record_birthday r = Some b -> valid_date (birthday_value b).

(** No two records of the book have the same name up to case, and every
    record is in order. *)
Definition book_ok (book : AddressBook) : Prop :=
  NoDup (key <$> contacts book) /\ Forall record_ok (contacts book).

(** Every character of the string is below U+0080. *)
Definition is_ascii (s : string) : bool :=
  Py.all_chars (fun c => (Py.code c <? 128)%N) s.

(** A word: not empty, and without a blank. *)
Definition is_word (s : string) : bool :=
  negb (s =? "") && Py.all_chars (fun c => negb (Py.char_isspace c)) s.

(** The line asks to leave: its first word is "close" or "exit". *)
Definition is_exit (user_input : string) : bool :=
  match parse_input user_input with
  | command :: _ => (command =? "close") || (command =? "exit")
  | [] => false
  end.

(** The event is a call of [save_data]. *)
Definition is_save (e : event) : bool :=
  match e with SaveData _ => true | _ => false end.

(** The phones held under a name: those of the record that [find] gives,
    none when it gives no record. *)
Definition phones_of (name : string) (book : AddressBook) : list Phone :=
  match find_from 0 (contacts book) name with
  | Some r => record_phones (contacts book !!! r)
  | None => []
  end.

(** The birthday held under a name, if any. *)
Definition birthday_of (name : string) (book : AddressBook)
  : option Birthday :=
  match find_from 0 (contacts book) name with
  | Some r => record_birthday (contacts book !!! r)
  | None => None
  end.

(** * Properties *)

(** ** Strings *)

Lemma all_chars_weaken (p q : ascii -> bool) (s : string) :
  (forall c, p c = true -> q c = true) ->
  Py.all_chars p s = true -> Py.all_chars q s = true.
Proof.
  intros Hpq. induction s as [|c s IH]; simpl; [done|].
  rewrite !andb_true_iff. intros [Hc Hs]. split; auto.
Qed.

Lemma is_decimal_isdigit (c : ascii) :
  Py.is_decimal c = true -> Py.char_isdigit c = true.
Proof. unfold Py.char_isdigit. intros ->. reflexivity. Qed.

(** ** Phone *)

(** What [Phone.__init__] tests, as one condition. *)
Lemma Phone_init_spec (value : string) :
  Phone_init value =
    if (Py.len value =? 10)%nat && Py.isdigit value
    then Return (mkPhone value)
    else Raise (ValueError "Phone number must be a 10-digit number.").
Proof.
  unfold Phone_init.
  destruct (Py.len value =? 10)%nat, (Py.isdigit value); reflexivity.
Qed.

Lemma Phone_init_Return (value : string) (p : Phone) :
  Phone_init value = Return p ->
  p = mkPhone value /\ Py.len value = 10 /\ Py.isdigit value = true.
Proof.
  rewrite Phone_init_spec.
  destruct (Py.len value =? 10)%nat eqn:Hl, (Py.isdigit value) eqn:Hd;
    simpl; intros [= <-].
  apply Nat.eqb_eq in Hl. done.
Qed.

Lemma Phone_init_Raise (value : string) (e : exn) :
  Phone_init value = Raise e ->
  e = ValueError "Phone number must be a 10-digit number.".
Proof.
  rewrite Phone_init_spec.
  destruct ((Py.len value =? 10)%nat && Py.isdigit value); by intros [= <-].
Qed.

(** Ten decimal digits are always taken, and kept as they are. *)
Lemma Phone_init_decimal (value : string) :
  Py.len value = 10 -> Py.all_chars Py.is_decimal value = true ->
  Phone_init value = Return (mkPhone value).
Proof.
  intros Hl Hd. rewrite Phone_init_spec, Hl. simpl.
  destruct value as [|c s]; [done|].
  unfold Py.isdigit.
  by rewrite (all_chars_weaken _ _ _ is_decimal_isdigit Hd).
Qed.

(** C4, at the input that breaks it: a string of ten superscript twos is
    taken as a phone number although none of its characters is a decimal
    digit; [str.isdigit] holds of more than the decimal digits. *)
Theorem Phone_init_superscript_twos :
  Phone_init superscript_twos = Return (mkPhone superscript_twos)
  /\ Py.len superscript_twos = 10
  /\ Py.all_chars (fun c => negb (Py.is_decimal c)) superscript_twos = true.
Proof. repeat split; vm_compute; reflexivity. Qed.

(** ** Record.add_phone *)

Lemma check_not_exists_Return (value : string) (ps : list Phone) :
  check_not_exists value ps = Return tt <->
  forall p, p ∈ ps -> phone_value p <> value.
Proof.
  induction ps as [|q ps IH]; simpl.
  - split; [|done]. intros _ p Hp. by apply elem_of_nil in Hp.
  - destruct (String.eqb_spec (phone_value q) value) as [Heq|Hne].
    + split; [done|]. intros H. exfalso. apply (H q); [left|done].
    + rewrite IH. split.
      * intros H p [->|Hp]%elem_of_cons; auto.
      * intros H p Hp. apply H. by right.
Qed.

Lemma check_not_exists_Raise (value : string) (ps : list Phone) (e : exn) :
  check_not_exists value ps = Raise e <->
  e = ValueError "Phone number already exists."
  /\ exists p, p ∈ ps /\ phone_value p = value.
Proof.
  induction ps as [|q ps IH]; simpl.
  - split; [done|]. intros (_ & p & Hp & _). by apply elem_of_nil in Hp.
  - destruct (String.eqb_spec (phone_value q) value) as [Heq|Hne].
    + split.
      * intros [= <-]. split; [done|]. exists q. split; [left|done].
      * by intros [-> _].
    + rewrite IH. split.
      * intros (-> & p & Hp & Hv). split; [done|]. exists p. split; [by right|done].
      * intros (-> & p & [->|Hp]%elem_of_cons & Hv); [done|]. eauto.
Qed.

(** [Record.add_phone], step by step: the loop, then [Phone], then the
    [append]. *)
Lemma Record_add_phone_run (value : string) (self : RecordT) :
  Record_add_phone value self =
    match check_not_exists value (record_phones self) with
    | Raise e => (self, Raise e)
    | Return _ =>
        match Phone_init value with
        | Return p => (set_phones (record_phones self ++ [p]) self, Return tt)
        | Raise e => (self, Raise e)
        end
    end.
Proof.
  unfold Record_add_phone, bind, get, call, modify.
  destruct (check_not_exists value (record_phones self)); [|done].
  destruct (Phone_init value); done.
Qed.

Lemma Record_add_phone_new (value : string) (self : RecordT) (p : Phone) :
  (forall q, q ∈ record_phones self -> phone_value q <> value) ->
  Phone_init value = Return p ->
  Record_add_phone value self
  = (set_phones (record_phones self ++ [mkPhone value]) self, Return tt).
Proof.
  intros Hnew Hp. rewrite Record_add_phone_run.
  apply check_not_exists_Return in Hnew. rewrite Hnew, Hp.
  by apply Phone_init_Return in Hp as [-> _].
Qed.

Lemma Record_add_phone_duplicate (value : string) (self : RecordT) :
  (exists q, q ∈ record_phones self /\ phone_value q = value) ->
  Record_add_phone value self
  = (self, Raise (ValueError "Phone number already exists.")).
Proof.
  intros Hdup. rewrite Record_add_phone_run.
  by rewrite (proj2 (check_not_exists_Raise _ _ _) (conj eq_refl Hdup)).
Qed.

Lemma Record_add_phone_malformed (value : string) (self : RecordT) (e : exn) :
  (forall q, q ∈ record_phones self -> phone_value q <> value) ->
  Phone_init value = Raise e ->
  Record_add_phone value self
  = (self, Raise (ValueError "Phone number must be a 10-digit number.")).
Proof.
  intros Hnew He. rewrite Record_add_phone_run.
  apply check_not_exists_Return in Hnew. rewrite Hnew, He.
  by rewrite (Phone_init_Raise _ _ He).
Qed.

(** A failed [add_phone] leaves the record as it was. *)
Lemma Record_add_phone_Raise (value : string) (self : RecordT) (e : exn) :
  snd (Record_add_phone value self) = Raise e ->
  fst (Record_add_phone value self) = self.
Proof.
  rewrite Record_add_phone_run.
  destruct (check_not_exists value (record_phones self)); [|done].
  destruct (Phone_init value); done.
Qed.

(** C6, against the claim as it is written: "abc" equals no phone of a new
    record, and yet it is not appended; [add_phone] fails on [Phone]'s own
    check. *)
Lemma Record_add_phone_malformed_not_appended :
  (forall q, q ∈ record_phones (Record_init "Bob") -> phone_value q <> "abc")
  /\ Record_add_phone "abc" (Record_init "Bob")
     = (Record_init "Bob",
        Raise (ValueError "Phone number must be a 10-digit number.")).
Proof.
  split; [|reflexivity].
  intros q Hq. by apply elem_of_nil in Hq.
Qed.

(** C6, amended: [add_phone] fails with "Phone number already exists."
    exactly when a phone of the record has the given value, and then the
    record is unchanged; otherwise a value that [Phone] takes is appended
    at the end of the phones, and a value that [Phone] refuses makes
    [add_phone] fail with [Phone]'s message, the record unchanged.  Adding
    a value that [Phone] takes twice to a new record fails the second time
    and leaves the one phone. *)
Theorem Record_add_phone_spec (self : RecordT) (value name : string) :
  ((exists q, q ∈ record_phones self /\ phone_value q = value) <->
   snd (Record_add_phone value self)
   = Raise (ValueError "Phone number already exists."))
  /\ ((exists q, q ∈ record_phones self /\ phone_value q = value) ->
      fst (Record_add_phone value self) = self)
  /\ ((forall q, q ∈ record_phones self -> phone_value q <> value) ->
      forall p, Phone_init value = Return p ->
      Record_add_phone value self
      = (set_phones (record_phones self ++ [mkPhone value]) self, Return tt))
  /\ ((forall q, q ∈ record_phones self -> phone_value q <> value) ->
      forall e, Phone_init value = Raise e ->
      Record_add_phone value self
      = (self, Raise (ValueError "Phone number must be a 10-digit number.")))
  /\ (forall p, Phone_init value = Return p ->
      let once := fst (Record_add_phone value (Record_init name)) in
      record_phones once = [mkPhone value]
      /\ Record_add_phone value once
         = (once, Raise (ValueError "Phone number already exists."))).
Proof.
  split_and!.
  - split.
    + intros Hdup. by rewrite Record_add_phone_duplicate.
    + rewrite Record_add_phone_run.
      destruct (check_not_exists value (record_phones self)) as [[]|e] eqn:Hc.
      * destruct (Phone_init value) eqn:Hp; simpl; [done|].
        rewrite (Phone_init_Raise _ _ Hp). done.
      * simpl. intros [= ->]. by apply check_not_exists_Raise in Hc as [_ ?].
  - intros Hdup. by rewrite Record_add_phone_duplicate.
  - intros Hnew p Hp. by eapply Record_add_phone_new.
  - intros Hnew e He. by eapply Record_add_phone_malformed.
  - intros p Hp once. subst once.
    erewrite Record_add_phone_new; [|by intros q Hq%elem_of_nil|done].
    split; [done|]. apply Record_add_phone_duplicate.
    exists (mkPhone value). split; [left|done].
Qed.

Lemma Record_add_phone_spec_witness :
  Record_add_phone "0987654321"
    (set_phones [mkPhone "1234567890"] (Record_init "John"))
  = (set_phones [mkPhone "1234567890"; mkPhone "0987654321"]
       (Record_init "John"), Return tt)
  /\ Record_add_phone "1234567890"
       (set_phones [mkPhone "1234567890"] (Record_init "John"))
     = (set_phones [mkPhone "1234567890"] (Record_init "John"),
        Raise (ValueError "Phone number already exists.")).
Proof.
  pose proof (Record_add_phone_spec
                (set_phones [mkPhone "1234567890"] (Record_init "John"))
                "0987654321" "John") as (_ & _ & Hnew & _ & _).
  pose proof (Record_add_phone_spec (Record_init "John")
                "1234567890" "John") as (_ & _ & _ & _ & Htwice).
  split.
  - apply (Hnew ltac:(by intros q [->|Hq%elem_of_nil]%elem_of_cons)
             (mkPhone "0987654321") eq_refl).
  - apply (Htwice (mkPhone "1234567890") eq_refl).
Defined.

(** ** AddressBook.find *)

Lemma find_from_Some (k : nat) (cs : list RecordT) (name : string) (i : ref) :
  find_from k cs name = Some i <->
  exists j r, i = k + j /\ cs !! j = Some r /\ name_matches name r
    /\ forall j' r', j' < j -> cs !! j' = Some r' -> ~ name_matches name r'.
Proof.
  revert k. induction cs as [|c cs IH]; intros k; simpl.
  - split; [done|]. by intros (j & r & _ & ? & _).
  - unfold name_matches in *.
    destruct (String.eqb_spec (Py.lower (name_value (record_name c)))
                (Py.lower name)) as [Heq|Hne].
    + split.
      * intros [= <-]. exists 0, c. split_and!; [lia|done|done|lia].
      * intros (j & r & -> & Hj & Hr & Hfirst).
        destruct j as [|j]; [f_equal; lia|].
        exfalso. apply (Hfirst 0 c); [lia|done|done].
    + rewrite IH. split.
      * intros (j & r & -> & Hj & Hr & Hfirst).
        exists (S j), r. split_and!; [lia|done|done|].
        intros [|j'] r' Hlt Hj'; simpl in Hj'; [by injection Hj' as <-|].
        apply (Hfirst j'); [lia|done].
      * intros (j & r & -> & Hj & Hr & Hfirst).
        destruct j as [|j]; simpl in Hj; [by injection Hj as <-|].
        exists j, r. split_and!; [lia|done|done|].
        intros j' r' Hlt Hj'. apply (Hfirst (S j')); [lia|done].
Qed.

Lemma find_from_None (k : nat) (cs : list RecordT) (name : string) :
  find_from k cs name = None <->
  forall r, r ∈ cs -> ~ name_matches name r.
Proof.
  revert k. induction cs as [|c cs IH]; intros k; simpl.
  - split; [|done]. intros _ r Hr. by apply elem_of_nil in Hr.
  - unfold name_matches in *.
    destruct (String.eqb_spec (Py.lower (name_value (record_name c)))
                (Py.lower name)) as [Heq|Hne].
    + split; [done|]. intros H. exfalso. apply (H c); [left|done].
    + rewrite IH. split.
      * intros H r [->|Hr]%elem_of_cons; auto.
      * intros H r Hr. apply H. by right.
Qed.

(** A reference that [find] gives stands for a record of the book. *)
Lemma find_from_lookup (cs : list RecordT) (name : string) (i : ref) :
  find_from 0 cs name = Some i ->
  exists r, cs !! i = Some r /\ name_matches name r.
Proof.
  intros (j & r & -> & Hj & Hr & _)%find_from_Some. eauto.
Qed.

(** [find] looks at the name in lower case only. *)
Lemma find_from_lower (k : nat) (cs : list RecordT) (name name' : string) :
  Py.lower name = Py.lower name' ->
  find_from k cs name = find_from k cs name'.
Proof.
  intros Heq. revert k. induction cs as [|c cs IH]; intros k; simpl; [done|].
  by rewrite Heq, IH.
Qed.

Lemma find_from_app_new (cs : list RecordT) (name : string) (r : RecordT) :
  (forall c, c ∈ cs -> ~ name_matches name c) ->
  name_matches name r ->
  find_from 0 (cs ++ [r]) name = Some (length cs).
Proof.
  intros Hnone Hr. apply find_from_Some.
  exists (length cs), r. split_and!; [done| |done|].
  - by rewrite lookup_app_r, Nat.sub_diag by lia.
  - intros j' r' Hlt Hj'. rewrite lookup_app_l in Hj' by done.
    apply Hnone. by eapply list_elem_of_lookup_2.
Qed.

(** C7: [find] leaves the book as it is and returns the first record, in
    the order of [contacts], whose name equals the given one in lower case;
    it returns [None] exactly when no name matches, as in the empty book;
    once a record named "Alice" is added to a book that had no such name,
    [find] on "alice" and on "ALICE" return that record. *)
Theorem find_first_match (book : AddressBook) (name : string) :
  fst (AddressBook_find name book) = book
  /\ (forall i,
        snd (AddressBook_find name book) = Return (Some i) <->
        exists r, contacts book !! i = Some r /\ name_matches name r
          /\ forall j r', j < i -> contacts book !! j = Some r' ->
                          ~ name_matches name r')
  /\ (snd (AddressBook_find name book) = Return None <->
      forall r, r ∈ contacts book -> ~ name_matches name r)
  /\ snd (AddressBook_find name AddressBook_init) = Return None
  /\ ((forall r, r ∈ contacts book -> ~ name_matches "Alice" r) ->
      forall book' i,
        AddressBook_add_record (Record_init "Alice") book
        = (book', Return i) ->
        contacts book' !! i = Some (Record_init "Alice")
        /\ snd (AddressBook_find "alice" book') = Return (Some i)
        /\ snd (AddressBook_find "ALICE" book') = Return (Some i)).
Proof.
  unfold AddressBook_find. simpl. split_and!.
  - done.
  - intros i. split.
    + intros [= (j & r & -> & ?)%find_from_Some]. eauto.
    + intros (r & Hi & Hr & Hfirst). f_equal.
      apply find_from_Some. exists i, r. done.
  - split.
    + intros [= H]. by apply (find_from_None 0).
    + intros H. by apply (find_from_None 0) in H as ->.
  - done.
  - intros Hnone book' i [= <- <-]. simpl. split_and!.
    + by rewrite lookup_app_r, Nat.sub_diag by lia.
    + rewrite (find_from_lower _ _ "alice" "Alice") by done.
      by rewrite find_from_app_new.
    + rewrite (find_from_lower _ _ "ALICE" "Alice") by done.
      by rewrite find_from_app_new.
Qed.

Lemma find_first_match_witness :
  snd (AddressBook_find "alice"
         (mkBook [Record_init "Bob"; Record_init "Alice"]))
  = Return (Some 1).
Proof.
  pose proof (find_first_match (mkBook [Record_init "Bob"]) "alice")
    as (_ & _ & _ & _ & Halice).
  apply (Halice ltac:(by intros r [->|Hr%elem_of_nil]%elem_of_cons)
           _ _ eq_refl).
Defined.

(** ** References into the book *)

Arguments on_record : simpl never.

Lemma on_record_lookup {A : Type} (r : ref) (m : SE RecordT A)
    (book : AddressBook) (rec : RecordT) :
  contacts book !! r = Some rec ->
  on_record r m book = (with_record r (fst (m rec)) book, snd (m rec)).
Proof.
  intros Hr. unfold on_record.
  rewrite (list_lookup_total_correct _ _ _ Hr). by destruct (m rec).
Qed.

Lemma with_record_lookup (r : ref) (rec rec' : RecordT) (book : AddressBook) :
  contacts book !! r = Some rec ->
  contacts (with_record r rec' book) !! r = Some rec'.
Proof.
  intros Hr. simpl. apply list_lookup_insert_eq. by eapply lookup_lt_Some.
Qed.

Lemma with_record_other (r j : ref) (rec' : RecordT) (book : AddressBook) :
  r <> j ->
  contacts (with_record r rec' book) !! j = contacts book !! j.
Proof. intros Hne. simpl. by apply list_lookup_insert_ne. Qed.

Lemma with_record_same (r : ref) (rec : RecordT) (book : AddressBook) :
  contacts book !! r = Some rec -> with_record r rec book = book.
Proof.
  intros Hr. unfold with_record. rewrite list_insert_id by done.
  by destruct book.
Qed.

Lemma with_record_twice (r : ref) (rec rec' : RecordT) (book : AddressBook) :
  with_record r rec' (with_record r rec book) = with_record r rec' book.
Proof. unfold with_record. simpl. by rewrite list_insert_insert_eq. Qed.

(** The record just added is the one at the reference [add_record] gave. *)
Lemma on_record_added {A : Type} (m : SE RecordT A) (book : AddressBook)
    (rec : RecordT) :
  on_record (length (contacts book)) m (mkBook (contacts book ++ [rec]))
  = (mkBook (contacts book ++ [fst (m rec)]), snd (m rec)).
Proof.
  unfold on_record. simpl.
  assert ((contacts book ++ [rec]) !! length (contacts book) = Some rec) as Hr.
  { by rewrite lookup_app_r, Nat.sub_diag by lia. }
  rewrite (list_lookup_total_correct _ _ _ Hr).
  destruct (m rec) as [rec' o]. simpl. f_equal. f_equal.
  rewrite insert_app_r_alt, Nat.sub_diag by lia. done.
Qed.

(** ** The handler [add] *)

Lemma valid_phone_nonempty (phone : string) (p : Phone) :
  Phone_init phone = Return p -> (phone =? "") = false.
Proof.
  intros (_ & Hl & _)%Phone_init_Return. by destruct phone.
Qed.

(** [add] on a name that [find] does not find. *)
Lemma add_contact_new (book : AddressBook) (name phone : string)
    (rest : list string) :
  find_from 0 (contacts book) name = None ->
  (phone =? "") = false ->
  add_contact (name :: phone :: rest) book
  = (mkBook (contacts book
             ++ [fst (Record_add_phone phone (Record_init name))]),
     match snd (Record_add_phone phone (Record_init name)) with
     | Return _ => Str ("Contact added. Phone number: " +:+ phone)
     | Raise e => Str ("Error: " +:+ exn_str e)
     end).
Proof.
  intros Hfind Hne.
  unfold add_contact, input_error, add_contact_func, bind, ret,
    AddressBook_find, AddressBook_add_record.
  simpl. rewrite Hfind, Hne. simpl.
  rewrite on_record_added.
  by destruct (snd (Record_add_phone phone (Record_init name))).
Qed.

(** [add] on a name that [find] finds. *)
Lemma add_contact_found (book : AddressBook) (name phone : string)
    (rest : list string) (r : ref) (rec : RecordT) :
  find_from 0 (contacts book) name = Some r ->
  contacts book !! r = Some rec ->
  (phone =? "") = false ->
  add_contact (name :: phone :: rest) book
  = (with_record r (fst (Record_add_phone phone rec)) book,
     match snd (Record_add_phone phone rec) with
     | Return _ => Str ("Contact updated. Phone number: " +:+ phone)
     | Raise e => Str ("Error: " +:+ exn_str e)
     end).
Proof.
  intros Hfind Hr Hne.
  unfold add_contact, input_error, add_contact_func, bind, ret,
    AddressBook_find.
  simpl. rewrite Hfind, Hne. simpl.
  rewrite (on_record_lookup _ _ _ _ Hr).
  by destruct (snd (Record_add_phone phone rec)).
Qed.

Lemma add_contact_usage (book : AddressBook) (args : list string) :
  length args < 2 ->
  add_contact args book
  = (book, Str "Invalid command. Use 'add [name] [phone]'.").
Proof.
  intros Hlen. unfold add_contact, input_error, add_contact_func.
  by destruct args as [|? [|? ?]]; simpl in *; [..|lia].
Qed.

(** C8, against the claim as it is written: no record is named "Bob", two
    arguments are given, and the answer is not "Contact added. ...": the
    phone is not one that [Phone] takes. *)
Lemma add_contact_new_name_malformed_phone :
  snd (AddressBook_find "Bob" AddressBook_init) = Return None
  /\ snd (add_contact ["Bob"; "123"] AddressBook_init)
     = Str "Error: Phone number must be a 10-digit number."
  /\ snd (add_contact ["Bob"; "123"] AddressBook_init)
     <> Str "Contact added. Phone number: 123".
Proof. split_and!; [reflexivity|reflexivity|discriminate]. Qed.

(** C8, amended: with at least two arguments (name, phone, the others
    ignored) and a phone that [Phone] takes: if [find] finds no record of
    that name, a new record with this one phone is added at the end of the
    book and the answer is "Contact added. Phone number: <phone>"; if it
    finds one that does not hold the phone yet, the phone is appended to
    its phones, which then hold the old ones and the new one, and the
    answer is "Contact updated. Phone number: <phone>".  With fewer than
    two arguments the answer is the usage string and the book is left as
    it is. *)
Theorem add_contact_spec (book : AddressBook) (name phone : string)
    (rest : list string) :
  (forall p, Phone_init phone = Return p ->
     find_from 0 (contacts book) name = None ->
     add_contact (name :: phone :: rest) book
     = (mkBook (contacts book
                ++ [set_phones [mkPhone phone] (Record_init name)]),
        Str ("Contact added. Phone number: " +:+ phone)))
  /\ (forall p r rec, Phone_init phone = Return p ->
        find_from 0 (contacts book) name = Some r ->
        contacts book !! r = Some rec ->
        (forall q, q ∈ record_phones rec -> phone_value q <> phone) ->
        add_contact (name :: phone :: rest) book
        = (with_record r
             (set_phones (record_phones rec ++ [mkPhone phone]) rec) book,
           Str ("Contact updated. Phone number: " +:+ phone)))
  /\ (forall args, length args < 2 ->
        add_contact args book
        = (book, Str "Invalid command. Use 'add [name] [phone]'.")).
Proof.
  split_and!.
  - intros p Hp Hfind.
    rewrite add_contact_new by eauto using valid_phone_nonempty.
    erewrite Record_add_phone_new; [done| |done].
    by intros q Hq%elem_of_nil.
  - intros p r rec Hp Hfind Hr Hnew.
    erewrite add_contact_found by eauto using valid_phone_nonempty.
    by erewrite Record_add_phone_new.
  - apply add_contact_usage.
Qed.

Lemma add_contact_spec_witness :
  add_contact ["John"; "1234567890"] AddressBook_init
  = (mkBook [set_phones [mkPhone "1234567890"] (Record_init "John")],
     Str "Contact added. Phone number: 1234567890")
  /\ add_contact ["John"; "0987654321"]
       (mkBook [set_phones [mkPhone "1234567890"] (Record_init "John")])
     = (mkBook [set_phones [mkPhone "1234567890"; mkPhone "0987654321"]
                  (Record_init "John")],
        Str "Contact updated. Phone number: 0987654321")
  /\ add_contact ["John"] AddressBook_init
     = (AddressBook_init, Str "Invalid command. Use 'add [name] [phone]'.").
Proof.
  split_and!.
  - apply (proj1 (add_contact_spec AddressBook_init "John" "1234567890" [])
             (mkPhone "1234567890") eq_refl eq_refl).
  - apply (proj1 (proj2 (add_contact_spec
             (mkBook [set_phones [mkPhone "1234567890"] (Record_init "John")])
             "John" "0987654321" []))
             (mkPhone "0987654321") 0
             (set_phones [mkPhone "1234567890"] (Record_init "John"))
             eq_refl eq_refl eq_refl).
    by intros q [->|Hq%elem_of_nil]%elem_of_cons.
  - apply (proj2 (proj2 (add_contact_spec AddressBook_init "" "" []))
             ["John"]).
    simpl. lia.
Defined.

(** ** The handler [change] *)

(** [change] on a name that [find] finds: the phones are emptied, then
    [add_phone] runs on the emptied record. *)
Lemma change_contact_found (book : AddressBook) (name new_phone : string)
    (r : ref) (rec : RecordT) :
  find_from 0 (contacts book) name = Some r ->
  contacts book !! r = Some rec ->
  change_contact [name; new_phone] book
  = (with_record r (fst (Record_add_phone new_phone (set_phones [] rec))) book,
     match snd (Record_add_phone new_phone (set_phones [] rec)) with
     | Return _ => Str ("Phone number changed for " +:+ name +:+ ".")
     | Raise e => Str ("Error: " +:+ exn_str e)
     end).
Proof.
  intros Hfind Hr.
  unfold change_contact, input_error, change_contact_func, bind, ret,
    AddressBook_find.
  simpl. rewrite Hfind. simpl.
  rewrite (list_lookup_total_correct _ _ _ Hr).
  change (mkBook (<[r := ?x]> (contacts book))) with (with_record r x book).
  rewrite (on_record_lookup _ _ _ _ (with_record_lookup _ _ _ _ Hr)).
  rewrite with_record_twice.
  by destruct (snd (Record_add_phone new_phone (set_phones [] rec))).
Qed.

Lemma change_contact_not_found (book : AddressBook) (name new_phone : string) :
  find_from 0 (contacts book) name = None ->
  change_contact [name; new_phone] book
  = (book, Str ("Contact " +:+ name +:+ " not found.")).
Proof.
  intros Hfind.
  unfold change_contact, input_error, change_contact_func, bind, ret,
    AddressBook_find.
  simpl. by rewrite Hfind.
Qed.

(** C9: when [find] finds a record for the name and [Phone] takes the new
    phone, [change] with these two arguments leaves the record with exactly
    this one phone, whatever phones it had; when [find] finds none, the
    book is left as it is, without a new record, and the answer is
    "Contact <name> not found.". *)
Theorem change_contact_spec (book : AddressBook) (name new_phone : string) :
  (forall p r rec, Phone_init new_phone = Return p ->
     find_from 0 (contacts book) name = Some r ->
     contacts book !! r = Some rec ->
     change_contact [name; new_phone] book
     = (with_record r (set_phones [mkPhone new_phone] rec) book,
        Str ("Phone number changed for " +:+ name +:+ ".")))
  /\ (find_from 0 (contacts book) name = None ->
      change_contact [name; new_phone] book
      = (book, Str ("Contact " +:+ name +:+ " not found."))).
Proof.
  split.
  - intros p r rec Hp Hfind Hr.
    rewrite (change_contact_found _ _ _ _ _ Hfind Hr).
    erewrite Record_add_phone_new; [done| |done].
    by intros q Hq%elem_of_nil.
  - apply change_contact_not_found.
Qed.

Lemma change_contact_spec_witness :
  change_contact ["John"; "5555555555"]
    (mkBook [set_phones [mkPhone "1234567890"; mkPhone "0987654321"]
               (Record_init "John")])
  = (mkBook [set_phones [mkPhone "5555555555"] (Record_init "John")],
     Str "Phone number changed for John.")
  /\ change_contact ["Ghost"; "5555555555"] AddressBook_init
     = (AddressBook_init, Str "Contact Ghost not found.").
Proof.
  split.
  - apply (proj1 (change_contact_spec
             (mkBook [set_phones [mkPhone "1234567890"; mkPhone "0987654321"]
                        (Record_init "John")]) "John" "5555555555")
             (mkPhone "5555555555") 0
             (set_phones [mkPhone "1234567890"; mkPhone "0987654321"]
                (Record_init "John"))
             eq_refl eq_refl eq_refl).
  - apply (proj2 (change_contact_spec AddressBook_init "Ghost" "5555555555")
             eq_refl).
Defined.

(** C3: when [find] finds a record for the name and [Phone] refuses the new
    phone, [change] with these two arguments answers with the error and
    leaves that record with no phone, its name and birthday and the other
    records as they were: the phones are emptied before the new one is
    checked. *)
Theorem change_contact_malformed_clears (book : AddressBook)
    (name new_phone : string) (r : ref) (rec : RecordT) (e : exn) :
  find_from 0 (contacts book) name = Some r ->
  contacts book !! r = Some rec ->
  record_phones rec <> [] ->
  Phone_init new_phone = Raise e ->
  let book' := fst (change_contact [name; new_phone] book) in
  book' = with_record r (set_phones [] rec) book
  /\ (exists rec', contacts book' !! r = Some rec'
        /\ record_phones rec' = []
        /\ record_name rec' = record_name rec
        /\ record_birthday rec' = record_birthday rec)
  /\ snd (change_contact [name; new_phone] book)
     = Str "Error: Phone number must be a 10-digit number.".
Proof.
  intros Hfind Hr _ He book'. subst book'.
  rewrite (change_contact_found _ _ _ _ _ Hfind Hr).
  erewrite Record_add_phone_malformed; [| |done].
  - simpl. split_and!; [done| |done].
    exists (set_phones [] rec). split_and!; try done.
    apply list_lookup_insert_eq. by eapply lookup_lt_Some.
  - by intros q Hq%elem_of_nil.
Qed.

Lemma change_contact_malformed_clears_witness :
  fst (change_contact ["john"; "555"]
         (mkBook [set_phones [mkPhone "1234567890"] (Record_init "John")]))
  = mkBook [Record_init "John"].
Proof.
  apply (change_contact_malformed_clears
           (mkBook [set_phones [mkPhone "1234567890"] (Record_init "John")])
           "john" "555" 0
           (set_phones [mkPhone "1234567890"] (Record_init "John"))
           (ValueError "Phone number must be a 10-digit number.")
           eq_refl eq_refl ltac:(discriminate) eq_refl).
Defined.

(** ** The handler [add-birthday] *)

Lemma Birthday_init_Raise (value : string) (e : exn) :
  Birthday_init value = Raise e ->
  e = ValueError "Invalid date format. Use DD.MM.YYYY".
Proof.
  unfold Birthday_init, Strptime.strptime, Strptime.check_date_fields,
    Strptime.int.
  repeat case_match; congruence.
Qed.

Lemma Record_add_birthday_run (value : string) (self : RecordT) :
  Record_add_birthday value self =
    match Birthday_init value with
    | Return b => (set_birthday (Some b) self, Return tt)
    | Raise e => (self, Raise e)
    end.
Proof.
  unfold Record_add_birthday, bind, call, modify.
  by destruct (Birthday_init value).
Qed.

Lemma add_birthday_found (book : AddressBook) (name date : string)
    (r : ref) (rec : RecordT) :
  find_from 0 (contacts book) name = Some r ->
  contacts book !! r = Some rec ->
  add_birthday [name; date] book
  = match Birthday_init date with
    | Return b =>
        (with_record r (set_birthday (Some b) rec) book,
         Str ("Birthday added for " +:+ name +:+ "."))
    | Raise e => (book, Str ("Error: " +:+ exn_str e))
    end.
Proof.
  intros Hfind Hr.
  unfold add_birthday, input_error, add_birthday_func, bind, ret,
    AddressBook_find.
  simpl. rewrite Hfind.
  rewrite (on_record_lookup _ _ _ _ Hr), Record_add_birthday_run.
  destruct (Birthday_init date); simpl; [done|].
  by rewrite with_record_same.
Qed.

(** ** What the handlers raise, and what a failure leaves behind *)

Lemma Record_add_phone_raises (value : string) (self : RecordT) (e : exn) :
  snd (Record_add_phone value self) = Raise e ->
  e = ValueError "Phone number must be a 10-digit number."
  \/ e = ValueError "Phone number already exists.".
Proof.
  rewrite Record_add_phone_run.
  destruct (check_not_exists value (record_phones self)) as [[]|e'] eqn:Hc.
  - destruct (Phone_init value) eqn:Hp; simpl; [done|].
    intros [= <-]. left. by eapply Phone_init_Raise.
  - simpl. intros [= <-]. right. by apply check_not_exists_Raise in Hc as [? _].
Qed.

Lemma Record_add_birthday_raises (value : string) (self : RecordT) (e : exn) :
  snd (Record_add_birthday value self) = Raise e ->
  e = ValueError "Invalid date format. Use DD.MM.YYYY"
  /\ fst (Record_add_birthday value self) = self.
Proof.
  rewrite Record_add_birthday_run.
  destruct (Birthday_init value) eqn:Hb; simpl; [done|].
  intros [= <-]. split; [|done]. by eapply Birthday_init_Raise.
Qed.

Ltac unfold_handler :=
  unfold add_contact, change_contact, show_phone, show_all_contacts,
    add_birthday, show_birthday, birthdays, input_error,
    add_contact_func, change_contact_func, show_phone_func,
    show_all_contacts_func, add_birthday_func, show_birthday_func,
    birthdays_func, bind, ret, get, deref, AddressBook_find,
    AddressBook_add_record, on_record;
  simpl.

(** The functions behind the handlers raise nothing but the three
    [ValueError]s of the fields and of [add_phone]. *)
Lemma func_of_raises (st : Strptime.year_style) (h : handler)
    (args : list string) (book : AddressBook) (e : exn) :
  snd (func_of st h args book) = Raise e ->
  e = ValueError "Phone number must be a 10-digit number."
  \/ e = ValueError "Phone number already exists."
  \/ e = ValueError "Invalid date format. Use DD.MM.YYYY".
Proof.
  destruct h; simpl; destruct args as [|a [|b [|c rest]]];
    unfold_handler; try discriminate;
    repeat (case_match; simpl; try discriminate); intros [= <-];
    simplify_eq;
    match goal with
    | H : Record_add_phone ?v ?r = (_, Raise ?e) |- _ =>
        destruct (Record_add_phone_raises v r e) as [->| ->];
        [by rewrite H|auto..]
    | H : Record_add_birthday ?v ?r = (_, Raise ?e) |- _ =>
        destruct (Record_add_birthday_raises v r e) as [-> _];
        [by rewrite H|auto]
    end.
Qed.

(** With a wrong number of arguments a handler answers with its usage
    string and leaves the book as it is. *)
Lemma invoke_usage (st : Strptime.year_style) (h : handler)
    (args : list string) (book : AddressBook) :
  arity_ok h (length args) = false ->
  invoke st h args book = (book, Str (usage h)).
Proof.
  destruct h; simpl; try discriminate;
    destruct args as [|a [|b [|c rest]]]; simpl; try discriminate; done.
Qed.

(** [add-birthday] that fails leaves the book as it was. *)
Lemma add_birthday_failure_unchanged (args : list string)
    (book : AddressBook) (e : exn) :
  snd (add_birthday_func args book) = Raise e ->
  fst (add_birthday_func args book) = book.
Proof.
  destruct args as [|a [|b [|c rest]]]; unfold_handler; try discriminate.
  destruct (find_from 0 (contacts book) a) as [r|] eqn:Hfind; [|done].
  destruct (find_from_lookup _ _ _ Hfind) as (rec & Hr & _).
  rewrite (list_lookup_total_correct _ _ _ Hr), Record_add_birthday_run.
  destruct (Birthday_init b); simpl; [done|].
  intros _. rewrite list_insert_id by done. by destruct book.
Qed.

(** [add] that fails on a record that was in the book leaves the book as
    it was. *)
Lemma add_contact_failure_unchanged_found (name phone : string)
    (rest : list string) (book : AddressBook) (r : ref) (e : exn) :
  find_from 0 (contacts book) name = Some r ->
  snd (add_contact_func (name :: phone :: rest) book) = Raise e ->
  fst (add_contact_func (name :: phone :: rest) book) = book.
Proof.
  intros Hfind. unfold_handler. rewrite Hfind.
  destruct (find_from_lookup _ _ _ Hfind) as (rec & Hr & _).
  destruct (phone =? "")%string; simpl; [done|].
  rewrite (list_lookup_total_correct _ _ _ Hr).
  pose proof (Record_add_phone_Raise phone rec) as Hsame.
  destruct (Record_add_phone phone rec) as [rec' [[]|e']]; simpl in *; [done|].
  intros _. rewrite (Hsame e' eq_refl), list_insert_id by done.
  by destruct book.
Qed.

(** [add] on a name that is not in the book, with a phone that [Phone]
    refuses: the answer is the error, and the new record stays in the
    book, without a phone. *)
Lemma add_contact_failure_new (name phone : string) (rest : list string)
    (book : AddressBook) (e : exn) :
  find_from 0 (contacts book) name = None ->
  (phone =? "") = false ->
  Phone_init phone = Raise e ->
  add_contact (name :: phone :: rest) book
  = (mkBook (contacts book ++ [Record_init name]),
     Str "Error: Phone number must be a 10-digit number.").
Proof.
  intros Hfind Hne He. rewrite add_contact_new by done.
  erewrite Record_add_phone_malformed; [done| |done].
  by intros q Hq%elem_of_nil.
Qed.

(** C1, at the input that breaks it: [add] of the new name "Ann" with the
    phone "12345" answers with the error of [Phone], and the book, empty
    before, now holds a record "Ann" without a phone: the record is added
    to the book before the phone is checked. *)
Theorem add_contact_failure_keeps_new_record :
  add_contact ["Ann"; "12345"] AddressBook_init
  = (mkBook [Record_init "Ann"],
     Str "Error: Phone number must be a 10-digit number.")
  /\ fst (add_contact ["Ann"; "12345"] AddressBook_init) <> AddressBook_init.
Proof. split; [reflexivity|discriminate]. Qed.

(** ** What [input_error] turns failures into *)

Lemma invoke_input_error (st : Strptime.year_style) (h : handler)
    (args : list string) (book : AddressBook) :
  invoke st h args book = input_error (func_of st h args) book.
Proof. by destruct h. Qed.

(** C2, against the claim as it is written: [add] without arguments, a
    wrong number of them, answers with its usage string, which is not of
    the form "Error: <description>". *)
Lemma usage_string_not_error_form :
  arity_ok Add (length (@nil string)) = false
  /\ snd (add_contact [] AddressBook_init)
     = Str "Invalid command. Use 'add [name] [phone]'."
  /\ forall description : string,
       snd (add_contact [] AddressBook_init)
       <> Str ("Error: " +:+ description).
Proof. split_and!; [reflexivity|reflexivity|discriminate]. Qed.

(** C2, amended: a handler always hands back a string or the list of the
    records, and no exception: whatever its function raises, which can
    only be one of the three [ValueError]s of validation, is caught and
    returned as the string "Error: <message>"; what its function returns
    is handed back as it is; and a wrong number of arguments is not raised
    but answered with the usage string of the handler, "Invalid command.
    ...", which has no "Error: " before it, the book left as it is. *)
Theorem input_error_policy (st : Strptime.year_style) (h : handler)
    (args : list string) (book : AddressBook) :
  (forall e, snd (func_of st h args book) = Raise e ->
     (e = ValueError "Phone number must be a 10-digit number."
      \/ e = ValueError "Phone number already exists."
      \/ e = ValueError "Invalid date format. Use DD.MM.YYYY")
     /\ invoke st h args book
        = (fst (func_of st h args book), Str ("Error: " +:+ exn_str e)))
  /\ (forall v, snd (func_of st h args book) = Return v ->
      invoke st h args book = (fst (func_of st h args book), v))
  /\ (arity_ok h (length args) = false ->
      invoke st h args book = (book, Str (usage h)))
  /\ (forall description, usage h <> "Error: " +:+ description)
  /\ ((exists s, snd (invoke st h args book) = Str s)
      \/ (exists l, snd (invoke st h args book) = RecordList l)).
Proof.
  split_and!.
  - intros e He. split; [by eapply func_of_raises|].
    rewrite invoke_input_error. unfold input_error.
    destruct (func_of st h args book) as [book' o]. simpl in *. by subst o.
  - intros v Hv. rewrite invoke_input_error. unfold input_error.
    destruct (func_of st h args book) as [book' o]. simpl in *. by subst o.
  - apply invoke_usage.
  - by destruct h.
  - destruct (invoke st h args book) as [book' [s|l]]; simpl; eauto.
Qed.

Lemma input_error_policy_witness :
  invoke Strptime.FourDigits AddBirthday ["John"; "1990-02-01"]
    (mkBook [Record_init "John"])
  = (mkBook [Record_init "John"],
     Str "Error: Invalid date format. Use DD.MM.YYYY")
  /\ invoke Strptime.FourDigits ShowPhone []
       (mkBook [Record_init "John"])
     = (mkBook [Record_init "John"],
        Str "Invalid command. Use 'phone [name]'.").
Proof.
  split.
  - apply (proj1 (input_error_policy Strptime.FourDigits AddBirthday
                    ["John"; "1990-02-01"] (mkBook [Record_init "John"]))
             (ValueError "Invalid date format. Use DD.MM.YYYY")).
    vm_compute. reflexivity.
  - apply (proj1 (proj2 (proj2 (input_error_policy Strptime.FourDigits
                    ShowPhone [] (mkBook [Record_init "John"])))) eq_refl).
Defined.

(** ** The handlers that only read *)

(** C10: [phone], [show-birthday], [all] and [birthdays] hand back the
    book they were given: the same records in the same order, each with
    the same name, phones and birthday. *)
Theorem queries_leave_book (st : Strptime.year_style) (args : list string)
    (book : AddressBook) :
  fst (show_phone args book) = book
  /\ fst (show_birthday st args book) = book
  /\ fst (show_all_contacts book) = book
  /\ fst (birthdays st book) = book.
Proof.
  split_and!.
  - destruct args as [|a [|b rest]]; unfold_handler; try done.
    destruct (find_from 0 (contacts book) a); [|done].
    by destruct (record_phones (contacts book !!! r)).
  - destruct args as [|a [|b rest]]; unfold_handler; try done.
    destruct (find_from 0 (contacts book) a); [|done].
    by destruct (record_birthday (contacts book !!! r)).
  - done.
  - unfold_handler. by destruct (all_birthdays st (contacts book)).
Qed.

(** ** Birthday: what [strptime] takes and what [strftime] writes *)

Arguments Py.in_range : simpl never.
Arguments Py.is_decimal : simpl never.
Arguments Ascii.eqb : simpl never.
Arguments String.append !s1 s2 : simpl nomatch.

Lemma elem_of_one_char (p : ascii -> bool) (s m rest : string) :
  (m, rest) ∈ one_char p s <->
  exists a, s = String a rest /\ m = String a "" /\ p a = true.
Proof.
  unfold one_char. destruct s as [|a s].
  - rewrite elem_of_nil. split; [done|]. by intros (a & ? & _).
  - destruct (p a) eqn:Hp.
    + rewrite list_elem_of_singleton. split.
      * intros [= -> ->]. eauto.
      * by intros (a' & [= <- <-] & -> & _).
    + rewrite elem_of_nil. split; [done|].
      intros (a' & [= <- <-] & _ & Hp'). congruence.
Qed.

Lemma string_app_assoc (a b c : string) : (a +:+ b) +:+ c = a +:+ (b +:+ c).
Proof. induction a as [|x a IH]; simpl; congruence. Qed.

Lemma elem_of_matches (r : regex) (s m rest : string) :
  (m, rest) ∈ matches r s <-> s = m +:+ rest /\ denotes r m.
Proof.
  revert s m rest. induction r as [c|lo hi| |r1 IH1 r2 IH2|r1 IH1 r2 IH2];
    intros s m rest; simpl.
  - rewrite elem_of_one_char. split.
    + intros (a & -> & -> & ->%Ascii.eqb_eq). done.
    + intros [-> ->]. exists c. by rewrite Ascii.eqb_refl.
  - rewrite elem_of_one_char. split.
    + intros (a & -> & -> & Ha). eauto.
    + intros [-> (a & -> & Ha)]. eauto.
  - rewrite elem_of_one_char. split.
    + intros (a & -> & -> & Ha). eauto.
    + intros [-> (a & -> & Ha)]. eauto.
  - rewrite list_elem_of_bind. split.
    + intros ([m1 s1] & Hin & [-> Hm1]%IH1).
      apply list_elem_of_bind in Hin as ([m2 s2] & Hin & [-> Hm2]%IH2).
      apply list_elem_of_singleton in Hin as [= -> ->].
      split; [by rewrite string_app_assoc|eauto].
    + intros [-> (m1 & m2 & -> & Hm1 & Hm2)].
      exists (m1, m2 +:+ rest). split.
      * apply list_elem_of_bind. exists (m2, rest). split; [by left|].
        by apply IH2.
      * apply IH1. by rewrite string_app_assoc.
  - rewrite elem_of_app, IH1, IH2. tauto.
Qed.

Lemma denotes_re_d (m : string) : denotes re_d m <-> day_text m = true.
Proof.
  unfold re_d. simpl. split.
  - intros [(?&?&->&->&a&->&Ha)|[(?&?&->&(a&->&Ha)&b&->&Hb)
      |[(?&?&->&->&b&->&Hb)|[(a&->&Ha)|(?&?&->&->&b&->&Hb)]]]]; simpl;
      rewrite ?Ha, ?Hb, ?Ascii.eqb_refl, ?orb_true_r; done.
  - destruct m as [|a [|b [|c m]]]; simpl; try done.
    + intros Ha. right; right; right; left. eauto.
    + rewrite !orb_true_iff, !andb_true_iff, !Ascii.eqb_eq.
      intros [[[[<- Hb]|[Ha Hb]]|[<- Hb]]|[<- Hb]].
      * left. exists "3", (String b ""). split_and!; eauto.
      * right; left. exists (String a ""), (String b ""). split_and!; eauto.
      * right; right; left. exists "0", (String b ""). split_and!; eauto.
      * right; right; right; right. exists " ", (String b "").
        split_and!; eauto.
Qed.

Lemma denotes_re_m (m : string) : denotes re_m m <-> month_text m = true.
Proof.
  unfold re_m. simpl. split.
  - intros [(?&?&->&->&b&->&Hb)|[(?&?&->&->&b&->&Hb)|(a&->&Ha)]]; simpl;
      rewrite ?Ha, ?Hb, ?Ascii.eqb_refl, ?orb_true_r; done.
  - destruct m as [|a [|b [|c m]]]; simpl; try done.
    + intros Ha. right; right. eauto.
    + rewrite !orb_true_iff, !andb_true_iff, !Ascii.eqb_eq.
      intros [[<- Hb]|[<- Hb]].
      * left. exists "1", (String b ""). split_and!; eauto.
      * right; left. exists "0", (String b ""). split_and!; eauto.
Qed.

Lemma denotes_re_Y (m : string) : denotes re_Y m <-> year_text m = true.
Proof.
  unfold re_Y. simpl. split.
  - intros (?&?&->&(a&->&Ha)&?&?&->&(b&->&Hb)&?&?&->&(c&->&Hc)&d&->&Hd).
    simpl. by rewrite Ha, Hb, Hc, Hd.
  - destruct m as [|a [|b [|c [|d [|e m]]]]]; simpl; try done.
    rewrite !andb_true_iff. intros [[[Ha Hb] Hc] Hd].
    exists (String a ""), (String b (String c (String d ""))).
    split_and!; eauto.
    exists (String b ""), (String c (String d "")). split_and!; eauto.
    exists (String c ""), (String d ""). split_and!; eauto.
Qed.

Lemma elem_of_match_items_pattern (s rest : string) (gs : list string) :
  (gs, rest) ∈ match_items pattern s <->
  exists d m y, gs = [d; m; y]
    /\ s = d +:+ "." +:+ m +:+ "." +:+ y +:+ rest
    /\ day_text d = true /\ month_text m = true /\ year_text y = true.
Proof.
  unfold pattern. cbn [match_items]. split.
  - intros ([d s1] & Hin & [-> Hd]%elem_of_matches)%list_elem_of_bind.
    apply list_elem_of_bind in Hin as ([gs1 s2] & Hin & Hin1).
    apply list_elem_of_singleton in Hin as [= -> ->].
    apply list_elem_of_bind in Hin1 as ([? s3] & Hin1 & [-> ->]%elem_of_matches).
    apply list_elem_of_bind in Hin1 as ([m s4] & Hin1 & [-> Hm]%elem_of_matches).
    apply list_elem_of_bind in Hin1 as ([gs2 s5] & Hin & Hin1).
    apply list_elem_of_singleton in Hin as [= -> ->].
    apply list_elem_of_bind in Hin1 as ([? s6] & Hin1 & [-> ->]%elem_of_matches).
    apply list_elem_of_bind in Hin1 as ([y s7] & Hin1 & [-> Hy]%elem_of_matches).
    apply list_elem_of_bind in Hin1 as ([gs3 s8] & Hin & Hin1).
    apply list_elem_of_singleton in Hin as [= -> ->].
    apply list_elem_of_singleton in Hin1 as [= -> ->].
    exists d, m, y. split_and!; try done.
    + by apply denotes_re_d.
    + by apply denotes_re_m.
    + by apply denotes_re_Y.
  - intros (d & m & y & -> & -> & Hd%denotes_re_d & Hm%denotes_re_m & Hy%denotes_re_Y).
    apply list_elem_of_bind. eexists (d, _). split; [|by apply elem_of_matches].
    apply list_elem_of_bind. eexists ([m; y], rest). split; [by left|].
    apply list_elem_of_bind. eexists (_, _). split; [|by apply elem_of_matches].
    apply list_elem_of_bind. eexists (m, _). split; [|by apply elem_of_matches].
    apply list_elem_of_bind. eexists ([y], rest). split; [by left|].
    apply list_elem_of_bind. eexists (_, _). split; [|by apply elem_of_matches].
    apply list_elem_of_bind. eexists (y, _). split; [|by apply elem_of_matches].
    apply list_elem_of_bind. eexists ([], rest). split; [by left|]. by left.
Qed.

Lemma append_nil_r (s : string) : s +:+ "" = s.
Proof. induction s as [|c s IH]; simpl; congruence. Qed.

Lemma in_range_not_dot (lo hi c : ascii) :
  Py.in_range lo hi "." = false -> Py.in_range lo hi c = true ->
  Ascii.eqb c "." = false.
Proof.
  intros Hdot Hc. destruct (Ascii.eqb_spec c ".") as [->|]; congruence.
Qed.

Lemma eqb_not_dot (a c : ascii) :
  Ascii.eqb a "." = false -> Ascii.eqb a c = true -> Ascii.eqb c "." = false.
Proof. by intros Hdot ->%Ascii.eqb_eq. Qed.

Lemma day_text_no_dot (t : string) : day_text t = true -> no_dot t = true.
Proof.
  destruct t as [|a [|b [|c t]]]; simpl; try done; unfold no_dot; simpl.
  - intros Ha. by rewrite (in_range_not_dot "1" "9" a).
  - rewrite !orb_true_iff, !andb_true_iff.
    intros [[[[Ha Hb]|[Ha Hb]]|[Ha Hb]]|[Ha Hb]].
    + by rewrite (eqb_not_dot "3" a), (in_range_not_dot "0" "1" b).
    + by rewrite (in_range_not_dot "1" "2" a), (in_range_not_dot "0" "9" b).
    + by rewrite (eqb_not_dot "0" a), (in_range_not_dot "1" "9" b).
    + by rewrite (eqb_not_dot " " a), (in_range_not_dot "1" "9" b).
Qed.

Lemma month_text_no_dot (t : string) : month_text t = true -> no_dot t = true.
Proof.
  destruct t as [|a [|b [|c t]]]; simpl; try done; unfold no_dot; simpl.
  - intros Ha. by rewrite (in_range_not_dot "1" "9" a).
  - rewrite !orb_true_iff, !andb_true_iff.
    intros [[Ha Hb]|[Ha Hb]].
    + by rewrite (eqb_not_dot "1" a), (in_range_not_dot "0" "2" b).
    + by rewrite (eqb_not_dot "0" a), (in_range_not_dot "1" "9" b).
Qed.

(** The text before the first dot is determined. *)
Lemma split_at_dot (d d' t t' : string) :
  no_dot d = true -> no_dot d' = true ->
  d +:+ "." +:+ t = d' +:+ "." +:+ t' -> d = d' /\ t = t'.
Proof.
  unfold no_dot. revert d'.
  induction d as [|a d IH]; intros [|a' d']; simpl.
  - by intros _ _ [= ->].
  - intros _ [Ha' _]%andb_true_iff [= <- _].
    by rewrite Ascii.eqb_refl in Ha'.
  - intros [Ha _]%andb_true_iff _ [= -> _].
    by rewrite Ascii.eqb_refl in Ha.
  - intros [_ Hd]%andb_true_iff [_ Hd']%andb_true_iff [= <- Heq].
    destruct (IH d' Hd Hd' Heq) as [-> ->]. done.
Qed.

Lemma year_text_split (y y' rest rest' : string) :
  year_text y = true -> year_text y' = true ->
  y +:+ rest = y' +:+ rest' -> y = y' /\ rest = rest'.
Proof.
  destruct y as [|a [|b [|c [|d [|e y]]]]]; simpl; try done.
  destruct y' as [|a' [|b' [|c' [|d' [|e' y']]]]]; simpl; try done.
  by intros _ _ [= -> -> -> -> ->].
Qed.

(** The pattern matches a string in one way at most. *)
Lemma match_items_pattern_unique (s : string) (x x' : list string * string) :
  x ∈ match_items pattern s -> x' ∈ match_items pattern s -> x = x'.
Proof.
  destruct x as [gs rest], x' as [gs' rest'].
  intros (d & m & y & -> & -> & Hd & Hm & Hy)%elem_of_match_items_pattern
         (d' & m' & y' & -> & Heq & Hd' & Hm' & Hy')%elem_of_match_items_pattern.
  apply split_at_dot in Heq as [-> Heq]; [|by apply day_text_no_dot..].
  apply split_at_dot in Heq as [-> Heq]; [|by apply month_text_no_dot..].
  by apply year_text_split in Heq as [-> ->].
Qed.

Lemma check_date_fields_Return (y m d : Z) (dt : datetime) :
  check_date_fields y m d = Return dt <->
  dt = mkDate y m d /\ valid_date dt.
Proof.
  unfold check_date_fields, valid_date.
  destruct ((1 <=? y) && (y <=? 9999))%Z eqn:Hy; simpl.
  2: { split; [done|]. intros [-> ?]. simpl in *. lia. }
  destruct ((1 <=? m) && (m <=? 12))%Z eqn:Hm; simpl.
  2: { split; [done|]. intros [-> ?]. simpl in *. lia. }
  destruct ((1 <=? d) && (d <=? days_in_month y m))%Z eqn:Hd; simpl.
  2: { split; [done|]. intros [-> ?]. simpl in *. lia. }
  split.
  - intros [= <-]. simpl. split; [done|lia].
  - by intros [-> _].
Qed.

(** What [strptime] takes, and what it makes of it. *)
Lemma strptime_Return (value : string) (dt : datetime) :
  strptime value = Return dt <->
  exists d m y,
    value = d +:+ "." +:+ m +:+ "." +:+ y
    /\ day_text d = true /\ month_text m = true /\ year_text y = true
    /\ int d = Return (day dt) /\ int m = Return (month dt)
    /\ int y = Return (year dt)
    /\ valid_date dt.
Proof.
  unfold strptime. split.
  - destruct (match_items pattern value) as [|[gs rest] l] eqn:Hl; [done|].
    assert ((gs, rest) ∈ match_items pattern value) as Hin
      by (rewrite Hl; left).
    apply elem_of_match_items_pattern
      in Hin as (d & m & y & -> & -> & Hd & Hm & Hy).
    destruct (String.eqb_spec rest "") as [->|]; simpl; [|done].
    destruct (int y) as [yv|] eqn:Hyv, (int m) as [mv|] eqn:Hmv,
      (int d) as [dv|] eqn:Hdv; try done.
    intros [-> Hvalid]%check_date_fields_Return.
    exists d, m, y. rewrite append_nil_r. done.
  - intros (d & m & y & -> & Hd & Hm & Hy & Hdv & Hmv & Hyv & Hvalid).
    assert (([d; m; y], "") ∈ match_items pattern (d +:+ "." +:+ m +:+ "." +:+ y))
      as Hin.
    { apply elem_of_match_items_pattern. exists d, m, y.
      rewrite append_nil_r. done. }
    destruct (match_items pattern _) as [|x l] eqn:Hl;
      [by apply elem_of_nil in Hin|].
    assert (x = ([d; m; y], "")) as ->.
    { apply (match_items_pattern_unique (d +:+ "." +:+ m +:+ "." +:+ y));
        [rewrite Hl; left|]. by rewrite Hl. }
    simpl. rewrite Hdv, Hmv, Hyv.
    apply check_date_fields_Return. by destruct dt.
Qed.

Lemma is_decimal_digit (c : ascii) :
  Py.is_decimal c = true ->
  (0 <= Py.digit_value c <= 9)%Z
  /\ Py.digit_char (Py.digit_value c) = c
  /\ Py.char_isspace c = false.
Proof.
  destruct c as [[] [] [] [] [] [] [] []]; vm_compute; intros H;
    try discriminate H; repeat split; discriminate.
Qed.

Lemma int_two_digits (a b : ascii) :
  Py.is_decimal a = true -> Py.is_decimal b = true ->
  int (String a (String b ""))
  = Return (10 * Py.digit_value a + Py.digit_value b)%Z.
Proof.
  intros Ha Hb.
  destruct (is_decimal_digit a Ha) as (_ & _ & Hsa).
  destruct (is_decimal_digit b Hb) as (_ & _ & Hsb).
  unfold int, Py.strip, Py.rstrip. simpl.
  rewrite Hsa. unfold String.rev. simpl. rewrite Hsb. simpl.
  unfold Py.char_isdigit. rewrite Ha, Hb. simpl.
  f_equal; lia.
Qed.

Lemma int_four_digits (a b c d : ascii) :
  Py.is_decimal a = true -> Py.is_decimal b = true ->
  Py.is_decimal c = true -> Py.is_decimal d = true ->
  int (String a (String b (String c (String d ""))))
  = Return (1000 * Py.digit_value a + 100 * Py.digit_value b
            + 10 * Py.digit_value c + Py.digit_value d)%Z.
Proof.
  intros Ha Hb Hc Hd.
  destruct (is_decimal_digit a Ha) as (_ & _ & Hsa).
  destruct (is_decimal_digit d Hd) as (_ & _ & Hsd).
  unfold int, Py.strip, Py.rstrip. simpl.
  rewrite Hsa. unfold String.rev. simpl. rewrite Hsd. simpl.
  unfold Py.char_isdigit. rewrite Ha, Hb, Hc, Hd. simpl.
  f_equal; lia.
Qed.

Lemma zfill2_two_digits (a b : ascii) :
  Py.is_decimal a = true -> Py.is_decimal b = true ->
  Py.zfill2 (10 * Py.digit_value a + Py.digit_value b)
  = String a (String b "").
Proof.
  intros Ha Hb.
  destruct (is_decimal_digit a Ha) as (Hra & Hca & _).
  destruct (is_decimal_digit b Hb) as (Hrb & Hcb & _).
  unfold Py.zfill2.
  replace ((10 * Py.digit_value a + Py.digit_value b) / 10)%Z
    with (Py.digit_value a) by (Z.div_mod_to_equations; lia).
  replace ((10 * Py.digit_value a + Py.digit_value b) mod 10)%Z
    with (Py.digit_value b) by (Z.div_mod_to_equations; lia).
  by rewrite Hca, Hcb.
Qed.

Lemma zfill4_four_digits (a b c d : ascii) :
  Py.is_decimal a = true -> Py.is_decimal b = true ->
  Py.is_decimal c = true -> Py.is_decimal d = true ->
  Py.zfill4 (1000 * Py.digit_value a + 100 * Py.digit_value b
             + 10 * Py.digit_value c + Py.digit_value d)
  = String a (String b (String c (String d ""))).
Proof.
  intros Ha Hb Hc Hd.
  destruct (is_decimal_digit a Ha) as (Hra & Hca & _).
  destruct (is_decimal_digit b Hb) as (Hrb & Hcb & _).
  destruct (is_decimal_digit c Hc) as (Hrc & Hcc & _).
  destruct (is_decimal_digit d Hd) as (Hrd & Hcd & _).
  unfold Py.zfill4.
  set (n := (1000 * Py.digit_value a + 100 * Py.digit_value b
             + 10 * Py.digit_value c + Py.digit_value d)%Z).
  replace (n / 1000)%Z with (Py.digit_value a)
    by (subst n; Z.div_mod_to_equations; lia).
  replace (n / 100 mod 10)%Z with (Py.digit_value b)
    by (subst n; Z.div_mod_to_equations; lia).
  replace (n / 10 mod 10)%Z with (Py.digit_value c)
    by (subst n; Z.div_mod_to_equations; lia).
  replace (n mod 10)%Z with (Py.digit_value d)
    by (subst n; Z.div_mod_to_equations; lia).
  by rewrite Hca, Hcb, Hcc, Hcd.
Qed.

Lemma is_decimal_not_dot (c : ascii) :
  Py.is_decimal c = true -> Ascii.eqb c "." = false.
Proof. by apply in_range_not_dot. Qed.

(** A string of the form DD.MM.YYYY that [strptime] takes is what
    [strftime] writes for the date, from the year 1000 on and, where the
    year is written on four digits, for every year. *)
Lemma strftime_strptime (st : year_style) (value : string) (dt : datetime) :
  strict_form value = true ->
  strptime value = Return dt ->
  st = FourDigits \/ (1000 <= year dt)%Z ->
  strftime st dt = value.
Proof.
  destruct value as [|d1 [|d2 [|p1 [|m1 [|m2 [|p2 [|y1 [|y2 [|y3 [|y4 [|]]]]]]]]]]];
    try done.
  unfold strict_form. rewrite !andb_true_iff, !Ascii.eqb_eq.
  intros [[[[[[[[[Hd1 Hd2] ->] Hm1] Hm2] ->] Hy1] Hy2] Hy3] Hy4].
  intros (d & m & y & Heq & Hd & Hm & Hy & Hdv & Hmv & Hyv & Hvalid)%strptime_Return
         Hst.
  apply (split_at_dot (String d1 (String d2 "")) d) in Heq as [<- Heq];
    [|unfold no_dot; simpl; by rewrite !is_decimal_not_dot
     |by apply day_text_no_dot].
  apply (split_at_dot (String m1 (String m2 "")) m) in Heq as [<- <-];
    [|unfold no_dot; simpl; by rewrite !is_decimal_not_dot
     |by apply month_text_no_dot].
  rewrite int_two_digits in Hdv, Hmv by done.
  rewrite int_four_digits in Hyv by done.
  injection Hdv as Hdv. injection Hmv as Hmv. injection Hyv as Hyv.
  unfold strftime. rewrite <- Hdv, <- Hmv.
  rewrite !zfill2_two_digits by done.
  assert (format_Y st (year dt)
          = String y1 (String y2 (String y3 (String y4 "")))) as ->; [|done].
  destruct Hst as [->|Hge].
  - simpl. rewrite <- Hyv. by apply zfill4_four_digits.
  - destruct st; simpl.
    + rewrite <- Hyv. by apply zfill4_four_digits.
    + destruct (year dt <? 10)%Z eqn:H1; [lia|].
      destruct (year dt <? 100)%Z eqn:H2; [lia|].
      destruct (year dt <? 1000)%Z eqn:H3; [lia|].
      rewrite <- Hyv. by apply zfill4_four_digits.
Qed.

Lemma Birthday_init_Return (value : string) (b : Birthday) :
  Birthday_init value = Return b <->
  strptime value = Return (birthday_value b).
Proof.
  unfold Birthday_init. destruct (strptime value) as [dt|[]]; split;
    try done.
  - by intros [= <-].
  - destruct b as [dt']. simpl. by intros [= ->].
Qed.




(** ** Sessions *)

(** "add John 1234567890", then "add John 0987654321": John has the two
    phones, in this order. *)
Example session_add_twice :
  let '(book1, reply1) := add_contact ["John"; "1234567890"] AddressBook_init in
  let '(book2, reply2) := add_contact ["John"; "0987654321"] book1 in
  reply1 = Str "Contact added. Phone number: 1234567890"
  /\ reply2 = Str "Contact updated. Phone number: 0987654321"
  /\ snd (show_phone ["john"] book2)
     = Str "john's phone number is: 1234567890, 0987654321".
Proof. vm_compute. done. Qed.

(** "add-birthday John 01.02.1990", then "show-birthday John". *)
Example session_birthday (st : year_style) :
  let '(book1, _) := add_contact ["John"; "1234567890"] AddressBook_init in
  let '(book2, reply2) := add_birthday ["John"; "01.02.1990"] book1 in
  reply2 = Str "Birthday added for John."
  /\ snd (show_birthday st ["John"] book2)
     = Str "John's birthday is: 01.02.1990"
  /\ snd (birthdays st book2) = Str "John: 01.02.1990".
Proof. destruct st; vm_compute; done. Qed.

(** "phone Ghost" and "birthdays" on a book without them. *)
Example session_nothing_found (st : year_style) :
  snd (show_phone ["Ghost"] AddressBook_init) = Str "Contact Ghost not found."
  /\ snd (birthdays st (mkBook [Record_init "John"]))
     = Str "No birthdays found."
  /\ snd (show_all_contacts (mkBook [Record_init "John"]))
     = RecordList [Record_init "John"].
Proof. done. Qed.

(** * Further properties *)

(** ** The words of a line *)

Lemma split_from_blank (cur s1 s2 : string) (c : ascii) :
  Py.char_isspace c = true ->
  split_from cur (s1 +:+ String c s2) = split_from cur s1 ++ split_from "" s2.
Proof.
  intros Hc. revert cur. induction s1 as [|a s1 IH]; intros cur; simpl.
  - rewrite Hc. by destruct (cur =? "")%string.
  - destruct (Py.char_isspace a); [|by rewrite IH].
    destruct (cur =? "")%string; by rewrite IH.
Qed.

Lemma split_from_nil (cur s : string) :
  split_from cur s = [] <->
  cur = "" /\ Py.all_chars Py.char_isspace s = true.
Proof.
  revert cur. induction s as [|a s IH]; intros cur; simpl.
  - destruct (String.eqb_spec cur ""); split; try done; by intros [? _].
  - destruct (Py.char_isspace a); simpl.
    + destruct (String.eqb_spec cur "") as [->|Hne].
      * rewrite IH. tauto.
      * split; [done|]. by intros [? _].
    + rewrite IH. split; [intros [H _]; by destruct cur|by intros [_ ?]].
Qed.

Lemma split_from_words (cur s : string) :
  Py.all_chars (fun c => negb (Py.char_isspace c)) cur = true ->
  Forall (fun w => is_word w = true) (split_from cur s).
Proof.
  revert cur. induction s as [|a s IH]; intros cur Hcur; simpl.
  - destruct (cur =? "")%string eqn:Hne; [done|].
    constructor; [|done]. unfold is_word. by rewrite Hne, Hcur.
  - destruct (Py.char_isspace a) eqn:Ha.
    + destruct (cur =? "")%string eqn:Hne; [by apply IH|].
      constructor; [|by apply IH]. unfold is_word. by rewrite Hne, Hcur.
    + apply IH. clear IH. induction cur as [|b cur IHc]; simpl in *.
      * by rewrite Ha.
      * apply andb_true_iff in Hcur as [-> Hcur]. simpl. by apply IHc.
Qed.

Lemma split_from_word (w : string) :
  is_word w = true -> split_from "" w = [w].
Proof.
  unfold is_word. intros [Hne Hw]%andb_true_iff.
  assert (forall cur, split_from cur w
            = if (cur +:+ w =? "")%string then [] else [cur +:+ w]) as H.
  { clear Hne. induction w as [|a w IH]; intros cur; simpl.
    - by rewrite append_nil_r.
    - simpl in Hw. apply andb_true_iff in Hw as [Ha Hw].
      apply negb_true_iff in Ha. rewrite Ha, (IH Hw).
      by rewrite string_app_assoc. }
  rewrite H. simpl. by destruct (w =? "")%string.
Qed.

Lemma all_chars_rev_app (p : ascii -> bool) (s1 s2 : string) :
  Py.all_chars p (String.rev_app s1 s2)
  = Py.all_chars p s1 && Py.all_chars p s2.
Proof.
  revert s2. induction s1 as [|a s1 IH]; intros s2; simpl; [done|].
  rewrite IH. simpl. by destruct (p a), (Py.all_chars p s1).
Qed.

Lemma lstrip_empty (s : string) :
  Py.lstrip s = "" <-> Py.all_chars Py.char_isspace s = true.
Proof.
  induction s as [|a s IH]; simpl; [done|].
  destruct (Py.char_isspace a); simpl; [done|]. split; discriminate.
Qed.

Lemma rev_empty (s : string) : String.rev s = "" <-> s = "".
Proof.
  split; [|by intros ->].
  unfold String.rev. destruct s as [|a s]; [done|]. simpl.
  assert (forall s1 s2, String.rev_app s1 s2 = "" -> s2 = "") as H.
  { clear. induction s1 as [|b s1 IH]; intros s2; simpl; [done|].
    by intros [=]%IH. }
  by intros [=]%H.
Qed.

Lemma lstrip_all_chars (p : ascii -> bool) (s : string) :
  Py.all_chars p s = true -> Py.all_chars p (Py.lstrip s) = true.
Proof.
  induction s as [|a s IH]; simpl; [done|].
  intros [Ha Hs]%andb_true_iff.
  destruct (Py.char_isspace a); [by apply IH|]. simpl. by rewrite Ha, Hs.
Qed.

(** [s.strip()] is empty exactly when [s] is made of blanks. *)
Lemma strip_empty (s : string) :
  Py.strip s = "" <-> Py.all_chars Py.char_isspace s = true.
Proof.
  unfold Py.strip, Py.rstrip.
  rewrite rev_empty, lstrip_empty. unfold String.rev.
  rewrite all_chars_rev_app. simpl. rewrite andb_true_r.
  split.
  - intros H. apply lstrip_empty.
    destruct (Py.lstrip s) as [|a t] eqn:Hl; [done|].
    exfalso. simpl in H. apply andb_true_iff in H as [Ha _].
    clear -Ha Hl. induction s as [|b s IH]; simpl in Hl; [done|].
    destruct (Py.char_isspace b) eqn:Hb; [by apply IH|].
    injection Hl as <- _. congruence.
  - intros H. by apply lstrip_all_chars.
Qed.

Lemma parse_input_nil (user_input : string) :
  parse_input user_input = [] <-> Py.strip user_input = "".
Proof. unfold parse_input. rewrite split_from_nil, strip_empty. tauto. Qed.

(** X1: the words that [parse_input] gives are never empty and hold no
    blank; there is none exactly when the line is made of blanks, which is
    when [strip] leaves nothing of it; and a line is split at a blank into
    the words before it and the words after it. *)
Theorem parse_input_words (user_input : string) :
  Forall (fun w => is_word w = true) (parse_input user_input)
  /\ (parse_input user_input = [] <-> Py.strip user_input = "")
  /\ (forall s1 s2 c, Py.char_isspace c = true ->
        parse_input (s1 +:+ String c s2) = parse_input s1 ++ parse_input s2).
Proof.
  unfold parse_input. split_and!.
  - by apply split_from_words.
  - apply parse_input_nil.
  - intros s1 s2 c Hc. by apply split_from_blank.
Qed.

(** X2: words joined by single spaces are split into the same words. *)
Theorem parse_input_join (ws : list string) :
  Forall (fun w => is_word w = true) ws ->
  parse_input (Py.join " " ws) = ws.
Proof.
  unfold parse_input. induction 1 as [|w ws Hw Hws IH]; [done|].
  destruct ws as [|w' ws].
  - by apply split_from_word.
  - change (Py.join " " (w :: w' :: ws))
      with (w +:+ String " " (Py.join " " (w' :: ws))).
    rewrite split_from_blank by done.
    by rewrite split_from_word, IH.
Qed.

Lemma parse_input_join_witness :
  parse_input (Py.join " " ["add"; "John"; "1234567890"])
  = ["add"; "John"; "1234567890"].
Proof.
  apply parse_input_join. repeat constructor.
Defined.

(** ** What a handler can do to the book *)

Lemma Record_add_phone_step (value : string) (rec : RecordT) :
  fst (Record_add_phone value rec) = rec
  \/ (Phone_init value = Return (mkPhone value)
      /\ (forall q, q ∈ record_phones rec -> phone_value q <> value)
      /\ fst (Record_add_phone value rec)
         = set_phones (record_phones rec ++ [mkPhone value]) rec).
Proof.
  rewrite Record_add_phone_run.
  destruct (check_not_exists value (record_phones rec)) as [[]|e] eqn:Hc;
    [|by left].
  destruct (Phone_init value) as [p|e] eqn:Hp; [|by left].
  right. apply Phone_init_Return in Hp as (-> & _).
  split_and!; [done| |done]. by apply check_not_exists_Return.
Qed.

Lemma add_contact_no_phone (book : AddressBook) (name : string)
    (rest : list string) :
  fst (add_contact (name :: "" :: rest) book)
  = match find_from 0 (contacts book) name with
    | Some _ => book
    | None => mkBook (contacts book ++ [Record_init name])
    end.
Proof.
  unfold_handler. by destruct (find_from 0 (contacts book) name).
Qed.

Lemma add_birthday_not_found (book : AddressBook) (name date : string) :
  find_from 0 (contacts book) name = None ->
  add_birthday [name; date] book
  = (book, Str ("Contact " +:+ name +:+ " not found.")).
Proof. intros Hfind. unfold_handler. by rewrite Hfind. Qed.

Lemma queries_unchanged (st : year_style) (args : list string)
    (book : AddressBook) :
  fst (show_phone args book) = book
  /\ fst (show_birthday st args book) = book
  /\ fst (show_all_contacts book) = book
  /\ fst (birthdays st book) = book.
Proof.
  split_and!.
  - destruct args as [|a [|b rest]]; unfold_handler; try done.
    destruct (find_from 0 (contacts book) a); [|done].
    by destruct (record_phones (contacts book !!! r)).
  - destruct args as [|a [|b rest]]; unfold_handler; try done.
    destruct (find_from 0 (contacts book) a); [|done].
    by destruct (record_birthday (contacts book !!! r)).
  - done.
  - unfold_handler. by destruct (all_birthdays st (contacts book)).
Qed.

Lemma add_contact_book_step (args : list string) (book : AddressBook) :
  book_step book (fst (add_contact args book)).
Proof.
  destruct args as [|name [|phone rest]];
    [rewrite add_contact_usage by (simpl; lia); constructor..|].
  destruct (String.eqb_spec phone "") as [->|Hne%String.eqb_neq].
  - rewrite add_contact_no_phone.
    destruct (find_from 0 (contacts book) name) eqn:Hfind; [constructor|].
    eapply step_new; [by apply (find_from_None 0)|constructor].
  - destruct (find_from 0 (contacts book) name) as [r|] eqn:Hfind.
    + destruct (find_from_lookup _ _ _ Hfind) as (rec & Hr & _).
      rewrite (add_contact_found _ _ _ _ _ _ Hfind Hr Hne). simpl.
      apply (step_record _ r rec); [done|].
      destruct (Record_add_phone_step phone rec) as [->|(Hp & Hnew & ->)];
        [constructor|by constructor].
    + rewrite (add_contact_new _ _ _ _ Hfind Hne). simpl.
      eapply step_new; [by apply (find_from_None 0)|].
      destruct (Record_add_phone_step phone (Record_init name))
        as [->|(Hp & Hnew & ->)]; [constructor|by constructor].
Qed.

Lemma change_contact_book_step (args : list string) (book : AddressBook) :
  book_step book (fst (change_contact args book)).
Proof.
  destruct args as [|name [|new_phone [|c rest]]]; try constructor.
  destruct (find_from 0 (contacts book) name) as [r|] eqn:Hfind.
  - destruct (find_from_lookup _ _ _ Hfind) as (rec & Hr & _).
    rewrite (change_contact_found _ _ _ _ _ Hfind Hr). simpl.
    apply (step_record _ r rec); [done|].
    destruct (Record_add_phone_step new_phone (set_phones [] rec))
      as [->|(Hp & Hnew & ->)]; [constructor|].
    change (record_step rec (set_phones [mkPhone new_phone] rec)).
    by constructor.
  - rewrite (change_contact_not_found _ _ _ Hfind). constructor.
Qed.

Lemma add_birthday_book_step (args : list string) (book : AddressBook) :
  book_step book (fst (add_birthday args book)).
Proof.
  destruct args as [|name [|date [|c rest]]]; try constructor.
  destruct (find_from 0 (contacts book) name) as [r|] eqn:Hfind.
  - destruct (find_from_lookup _ _ _ Hfind) as (rec & Hr & _).
    rewrite (add_birthday_found _ _ _ _ _ Hfind Hr).
    destruct (Birthday_init date) as [b|e] eqn:Hb; simpl; [|constructor].
    apply (step_record _ r rec); [done|]. by econstructor.
  - rewrite (add_birthday_not_found _ _ _ Hfind). constructor.
Qed.

Lemma handler_book_step (st : year_style) (h : handler)
    (args : list string) (book : AddressBook) :
  book_step book (fst (invoke st h args book)).
Proof.
  destruct h; simpl.
  - apply add_contact_book_step.
  - apply change_contact_book_step.
  - rewrite (proj1 (queries_unchanged st args book)). constructor.
  - constructor.
  - apply add_birthday_book_step.
  - rewrite (proj1 (proj2 (queries_unchanged st args book))). constructor.
  - rewrite (proj2 (proj2 (proj2 (queries_unchanged st args book)))).
    constructor.
Qed.

(** X3: whatever the handler and its arguments, the book after it is the
    book before, or the book before with one of its records changed, or
    the book before with one new record at the end, whose name matched no
    record; a changed record keeps its name and gets one more phone that
    [Phone] takes and that it did not hold, or loses its phones, or gets
    one phone in place of them, or gets a birthday that [Birthday] made.
    So the book never gets shorter, and longer by one record at most. *)
Theorem invoke_book_step (st : year_style) (h : handler)
    (args : list string) (book : AddressBook) :
  book_step book (fst (invoke st h args book))
  /\ length (contacts book) <= length (contacts (fst (invoke st h args book)))
     <= S (length (contacts book)).
Proof.
  pose proof (handler_book_step st h args book) as Hstep.
  split; [done|].
  destruct Hstep as [|r rec rec' Hr Hstep|name rec' Hnone Hstep]; simpl.
  - lia.
  - rewrite length_insert. lia.
  - rewrite length_app. simpl. lia.
Qed.

(** ** What the handlers keep *)

Lemma record_step_name (rec rec' : RecordT) :
  record_step rec rec' -> record_name rec' = record_name rec.
Proof. by destruct 1. Qed.

Lemma Birthday_init_valid (date : string) (b : Birthday) :
  Birthday_init date = Return b -> valid_date (birthday_value b).
Proof.
  intros Hb%Birthday_init_Return.
  by apply strptime_Return in Hb as (d & m & y & _ & _ & _ & _ & _ & _ & _ & ?).
Qed.

Lemma record_step_ok (rec rec' : RecordT) :
  record_ok rec -> record_step rec rec' -> record_ok rec'.
Proof.
  intros (Hdup & Hvalid & Hbirthday) Hstep.
  destruct Hstep as [|v Hv Hnew| |v Hv|date b Hb]; unfold record_ok; simpl.
  - done.
  - split_and!; [|by apply Forall_app; split; [|constructor]|done].
    rewrite fmap_app. apply NoDup_app. split_and!; [done| |apply NoDup_singleton].
    intros x (q & -> & Hq)%list_elem_of_fmap [Heq|[]%elem_of_nil]%elem_of_cons.
    by apply (Hnew q).
  - split_and!; [constructor|constructor|done].
  - split_and!; [apply NoDup_singleton|by repeat constructor|done].
  - split_and!; [done|done|].
    intros b' [= <-]. by eapply Birthday_init_valid.
Qed.

Lemma Record_init_ok (name : string) : record_ok (Record_init name).
Proof. split_and!; [constructor|constructor|done]. Qed.

Lemma book_step_ok (book book' : AddressBook) :
  book_ok book -> book_step book book' -> book_ok book'.
Proof.
  intros [Hkeys Hrecs] [|r rec rec' Hr Hstep|name rec' Hnone Hstep];
    unfold book_ok, ref in *; simpl.
  - done.
  - split.
    + rewrite list_fmap_insert. unfold key at 1.
      rewrite (record_step_name _ _ Hstep).
      rewrite list_insert_id; [done|]. by rewrite list_lookup_fmap, Hr.
    + apply Forall_insert; [done|].
      eapply record_step_ok; [|done].
      by eapply Forall_lookup_1 in Hrecs.
  - split.
    + rewrite fmap_app. apply NoDup_app. split_and!; [done| |apply NoDup_singleton].
      intros x (c & -> & Hc)%list_elem_of_fmap [Hx|[]%elem_of_nil]%elem_of_cons.
      apply (Hnone c Hc). unfold name_matches. unfold key in Hx.
      by rewrite Hx, (record_step_name _ _ Hstep).
    + apply Forall_app. split; [done|]. constructor; [|done].
      eapply record_step_ok; [apply Record_init_ok|done].
Qed.

(** X4: a handler keeps the book in order: if no two records have the same
    name up to case, every phone is one that [Phone] takes, the phones of a
    record differ from one another and every birthday is a date of the
    calendar, then the same holds after any handler with any arguments,
    whether it answers with an error or not. *)
Theorem invoke_keeps_book_ok (st : year_style) (h : handler)
    (args : list string) (book : AddressBook) :
  book_ok book -> book_ok (fst (invoke st h args book)).
Proof.
  intros Hok. eapply book_step_ok; [done|]. apply handler_book_step.
Qed.

Lemma invoke_keeps_book_ok_witness :
  book_ok (fst (invoke Plain Add ["John"; "1234567890"] AddressBook_init)).
Proof.
  apply (invoke_keeps_book_ok Plain Add ["John"; "1234567890"]
           AddressBook_init).
  split; simpl; constructor.
Defined.

Lemma book_step_names (book book' : AddressBook) :
  book_step book book' ->
  record_name <$> contacts book' = record_name <$> contacts book
  \/ exists name, record_name <$> contacts book'
                  = (record_name <$> contacts book) ++ [Name_init name].
Proof.
  intros [|r rec rec' Hr Hstep|name rec' Hnone Hstep]; unfold ref in *; simpl.
  - by left.
  - left. rewrite list_fmap_insert, (record_step_name _ _ Hstep).
    rewrite list_insert_id; [done|]. by rewrite list_lookup_fmap, Hr.
  - right. exists name. rewrite fmap_app. simpl.
    by rewrite (record_step_name _ _ Hstep).
Qed.

(** X5: no handler removes, renames or reorders records: the names of the
    records after a handler are the names before, in the same order, with
    at most one name more at the end; and a name comes in only by [add],
    with at least two arguments, the first one a name that [find] does not
    find. *)
Theorem invoke_keeps_names (st : year_style) (h : handler)
    (args : list string) (book : AddressBook) :
  let names := record_name <$> contacts book in
  let names' := record_name <$> contacts (fst (invoke st h args book)) in
  (names' = names
   \/ exists name rest, h = Add /\ args = name :: rest /\ rest <> []
        /\ find_from 0 (contacts book) name = None
        /\ names' = names ++ [Name_init name]).
Proof.
  simpl.
  destruct (book_step_names _ _ (handler_book_step st h args book))
    as [Hsame|[name' Hnew]]; [by left|].
  assert (length (contacts (fst (invoke st h args book)))
          = S (length (contacts book))) as Hlen.
  { apply (f_equal length) in Hnew.
    rewrite length_app, !length_fmap in Hnew. simpl in Hnew. lia. }
  destruct h; simpl in *.
  - destruct args as [|name [|phone rest]];
      [rewrite add_contact_usage in Hlen by (simpl; lia); simpl in Hlen; lia..|].
    right. exists name, (phone :: rest).
    destruct (find_from 0 (contacts book) name) as [r|] eqn:Hfind.
    + exfalso. destruct (find_from_lookup _ _ _ Hfind) as (rec & Hr & _).
      destruct (String.eqb_spec phone "") as [->|Hne%String.eqb_neq].
      * rewrite add_contact_no_phone, Hfind in Hlen. lia.
      * rewrite (add_contact_found _ _ _ _ _ _ Hfind Hr Hne) in Hlen.
        simpl in Hlen. rewrite length_insert in Hlen. lia.
    + split_and!; try done.
      destruct (String.eqb_spec phone "") as [->|Hne%String.eqb_neq].
      * rewrite add_contact_no_phone, Hfind. simpl. by rewrite fmap_app.
      * rewrite (add_contact_new _ _ _ _ Hfind Hne). simpl.
        rewrite fmap_app. simpl. do 2 f_equal.
        by destruct (Record_add_phone_step phone (Record_init name))
          as [->|(_ & _ & ->)].
  - exfalso. destruct args as [|name [|new_phone [|c rest]]];
      try (simpl in Hlen; lia).
    destruct (find_from 0 (contacts book) name) as [r|] eqn:Hfind.
    + destruct (find_from_lookup _ _ _ Hfind) as (rec & Hr & _).
      rewrite (change_contact_found _ _ _ _ _ Hfind Hr) in Hlen.
      simpl in Hlen. rewrite length_insert in Hlen. lia.
    + rewrite (change_contact_not_found _ _ _ Hfind) in Hlen.
      simpl in Hlen. lia.
  - rewrite (proj1 (queries_unchanged st args book)) in Hlen. lia.
  - simpl in Hlen. lia.
  - exfalso. destruct args as [|name [|date [|c rest]]];
      try (simpl in Hlen; lia).
    destruct (find_from 0 (contacts book) name) as [r|] eqn:Hfind.
    + destruct (find_from_lookup _ _ _ Hfind) as (rec & Hr & _).
      rewrite (add_birthday_found _ _ _ _ _ Hfind Hr) in Hlen.
      destruct (Birthday_init date); simpl in Hlen;
        [rewrite length_insert in Hlen|]; lia.
    + rewrite (add_birthday_not_found _ _ _ Hfind) in Hlen.
      simpl in Hlen. lia.
  - rewrite (proj1 (proj2 (queries_unchanged st args book))) in Hlen. lia.
  - rewrite (proj2 (proj2 (proj2 (queries_unchanged st args book)))) in Hlen.
    lia.
Qed.

(** X6: in a book where no two records have the same name up to case,
    [find] on the name of a record, in any case, gives that record: no
    record is out of reach. *)
Theorem find_reaches_record (book : AddressBook) (i : ref) (r : RecordT)
    (name : string) :
  NoDup (key <$> contacts book) ->
  contacts book !! i = Some r ->
  Py.lower name = Py.lower (name_value (record_name r)) ->
  snd (AddressBook_find name book) = Return (Some i).
Proof.
  intros Hkeys Hi Hname. unfold AddressBook_find, ref in *. simpl. f_equal.
  apply find_from_Some. exists i, r. split_and!; [done|done|done|].
  intros j r' Hlt Hj Hmatch.
  assert (j = i); [|lia].
  eapply (NoDup_lookup (key <$> contacts book)); [done| |].
  - rewrite list_lookup_fmap, Hj. simpl. unfold key. by rewrite Hmatch.
  - rewrite list_lookup_fmap, Hi. simpl. unfold key. by rewrite Hname.
Qed.

Lemma find_reaches_record_witness :
  snd (AddressBook_find "BOB"
         (mkBook [Record_init "Alice"; Record_init "Bob"]))
  = Return (Some 1).
Proof.
  apply (find_reaches_record
           (mkBook [Record_init "Alice"; Record_init "Bob"]) 1
           (Record_init "Bob") "BOB"); [|reflexivity|reflexivity].
  vm_compute. constructor; [|constructor; [apply not_elem_of_nil|constructor]].
  intros [H|H%elem_of_nil]%elem_of_cons; [discriminate H|done].
Defined.

(** ** The driver *)

Lemma input_error_Str (func : SE AddressBook value) (book : AddressBook) :
  (forall v, snd (func book) = Return v -> exists s, v = Str s) ->
  exists s, snd (input_error func book) = Str s.
Proof.
  intros Hstr. unfold input_error.
  destruct (func book) as [book' [v|e]]; simpl in *; eauto.
Qed.

Lemma bind_returns {S A B : Type} (m : SE S A) (k : A -> SE S B)
    (P : B -> Prop) :
  (forall a s v, snd (k a s) = Return v -> P v) ->
  forall s v, snd (bind m k s) = Return v -> P v.
Proof.
  intros Hk s v. unfold bind. destruct (m s) as [s' [a|e]]; [|done].
  apply Hk.
Qed.

Ltac returns_Str :=
  repeat match goal with
    | |- snd (bind ?m ?k ?s) = Return ?v -> _ =>
        revert s v;
        apply (bind_returns m k (fun v => exists s, v = Str s));
        intros ? ? ?; cbv beta
    | |- snd (ret _ _) = Return _ -> _ => intros [= <-]; eauto
    | |- snd (raise _ _) = Return _ -> _ => discriminate
    | |- snd ((if ?x then _ else _) _) = Return _ -> _ => destruct x
    | |- snd ((let '(_, _) := ?x in _) _) = Return _ -> _ => destruct x
    | |- snd ((match ?x with _ => _ end) _) = Return _ -> _ => destruct x
    end.

(** The handlers whose answer goes to [display_message] answer with a
    string. *)
Lemma handlers_return_Str (st : year_style) (args : list string)
    (book : AddressBook) :
  (exists s, snd (add_contact args book) = Str s)
  /\ (exists s, snd (change_contact args book) = Str s)
  /\ (exists s, snd (show_phone args book) = Str s)
  /\ (exists s, snd (add_birthday args book) = Str s)
  /\ (exists s, snd (show_birthday st args book) = Str s)
  /\ (exists s, snd (birthdays st book) = Str s).
Proof.
  split_and!; apply input_error_Str; intros v;
    unfold add_contact_func, change_contact_func, show_phone_func,
      add_birthday_func, show_birthday_func, birthdays_func;
    returns_Str.
Qed.

Lemma main_step_spec (w : world) (st : year_style) (user_input : string)
    (book : AddressBook) (trace : list event) :
  book_step book (main_step w st user_input book trace).1.1
  /\ (if is_exit user_input
      then main_step w st user_input book trace
           = match w trace (SaveData book) with
             | Some name =>
                 (book, trace ++ [SaveData book], Uncaught (IOFailure name))
             | None =>
                 (book,
                  trace ++ [SaveData book; DisplayMessage (Str "Goodbye!")],
                  match w (trace ++ [SaveData book])
                          (DisplayMessage (Str "Goodbye!")) with
                  | Some name => Uncaught (IOFailure name)
                  | None => Break
                  end)
             end
      else exists ev,
             is_Some (console st ev)
             /\ main_step w st user_input book trace
                = display w (main_step w st user_input book trace).1.1 ev
                    trace).
Proof.
  unfold main_step, is_exit.
  destruct (String.eqb_spec (Py.strip user_input) "") as [Hs|Hs].
  { apply parse_input_nil in Hs as ->.
    split; [constructor|]. eexists. split; [|reflexivity]. by eexists. }
  destruct (parse_input user_input) as [|command args] eqn:Hp.
  { by apply parse_input_nil in Hp. }
  destruct (handlers_return_Str st args book)
    as ([s1 H1] & [s2 H2] & [s3 H3] & [s4 H4] & [s5 H5] & [s6 H6]).
  pose proof (add_contact_book_step args book) as Hadd.
  pose proof (change_contact_book_step args book) as Hchange.
  pose proof (add_birthday_book_step args book) as Hbirthday.
  destruct (queries_unchanged st args book) as (Hq1 & Hq2 & _ & Hq4).
  destruct ((command =? "close") || (command =? "exit"))%string.
  { split; [|done]. destruct (w trace (SaveData book)); constructor. }
  change (show_all_contacts book) with (book, RecordList (contacts book)).
  repeat match goal with
    | |- context [if (command =? ?x)%string then _ else _] =>
        destruct (command =? x)%string
    end;
    repeat match goal with
      | |- context [let '(_, _) := ?call in _] =>
          destruct call as [book' v]
      end;
    cbn [fst snd display] in *; subst;
    (split; [first [assumption|constructor]
            |eexists; (split; [|reflexivity]); by eexists]).
Qed.


Lemma main_loop_book_ok (w : world) (st : year_style) (inputs : list string)
    (book : AddressBook) (trace : list event) :
  book_ok book ->
  book_ok (main_loop w st inputs book trace).1.1
  /\ (forall e, (main_loop w st inputs book trace).2 <> Crashed (Exception e))
  /\ ((forall t ev, w t ev = None) ->
      forall f, (main_loop w st inputs book trace).2 <> Crashed f).
Proof.
  revert book trace. induction inputs as [|x inputs IH]; intros book trace Hok;
    cbn [main_loop].
  - destruct (w trace (Input "Enter a command: ")) eqn:Hw; cbn [fst snd];
      (split_and!; [done|done|]); intros Hcalm; [|done].
    by rewrite Hcalm in Hw.
  - destruct (w trace (Input "Enter a command: ")) eqn:Hw; cbn [fst snd].
    { split_and!; [done|done|]. intros Hcalm. by rewrite Hcalm in Hw. }
    pose proof (main_step_spec w st x book
                  (trace ++ [Input "Enter a command: "])) as [Hstep Hcases].
    destruct (is_exit x).
    + rewrite Hcases. clear Hcases.
      destruct (w (trace ++ [Input "Enter a command: "]) (SaveData book))
        eqn:Hsave; cbn [fst snd].
      { split_and!; [done|done|]. intros Hcalm. by rewrite Hcalm in Hsave. }
      destruct (w ((trace ++ [Input "Enter a command: "]) ++ [SaveData book])
                  (DisplayMessage (Str "Goodbye!"))) eqn:Hbye; cbn [fst snd];
        (split_and!; [done|done|]); intros Hcalm; [|done].
      by rewrite Hcalm in Hbye.
    + destruct Hcases as (ev & _ & Heq).
      destruct (main_step w st x book (trace ++ [Input "Enter a command: "]))
        as [[book' trace'] nxt].
      cbn [fst] in *. unfold display in Heq. injection Heq as -> ->.
      pose proof (book_step_ok _ _ Hok Hstep) as Hok'.
      destruct (w (trace ++ [Input "Enter a command: "]) ev) eqn:Hev;
        [|by apply IH].
      cbn [fst snd]. split_and!; [done|done|].
      intros Hcalm. by rewrite Hcalm in Hev.
Qed.

(** X8: a session keeps the book in order, whatever the world answers to
    its calls, and never ends on an exception of the code of [main] or of
    a handler: from a loaded book in order (as the empty one is), whatever
    the lines typed, the book at the end is in order; and when every call
    of [print], [input] and [save_data] returns, the session ends by
    [close] or [exit], or on [input] having no line left. *)
Theorem main_keeps_book_ok (w : world) (st : year_style)
    (inputs : list string) (loaded : AddressBook) :
  book_ok loaded ->
  book_ok (main w st loaded inputs).1.1
  /\ (forall e, (main w st loaded inputs).2 <> Crashed (Exception e))
  /\ ((forall t ev, w t ev = None) ->
      forall f, (main w st loaded inputs).2 <> Crashed f).
Proof.
  intros Hok. unfold main.
  destruct (w [] (PrintLine "Welcome to the assistant bot!")) eqn:Hw.
  - cbn [fst snd]. split_and!; [done|done|].
    intros Hcalm. by rewrite Hcalm in Hw.
  - by apply main_loop_book_ok.
Qed.

Lemma main_keeps_book_ok_witness :
  book_ok (main calm Plain AddressBook_init
             ["add John 1234567890"; "add john 12"; "exit"]).1.1.
Proof.
  apply (main_keeps_book_ok calm Plain
           ["add John 1234567890"; "add john 12"; "exit"] AddressBook_init).
  split; simpl; constructor.
Defined.

Lemma console_not_save (st : year_style) (ev : event) :
  is_Some (console st ev) -> is_save ev = false.
Proof. destruct ev; try done. by intros []. Qed.

Lemma save_split_unique (before after before' after' : list event)
    (b b' : AddressBook) :
  Forall (fun ev => is_save ev = false) before ->
  Forall (fun ev => is_save ev = false) after ->
  before ++ SaveData b :: after = before' ++ SaveData b' :: after' ->
  before' = before /\ b' = b /\ after' = after.
Proof.
  intros Hbefore Hafter. revert before'.
  induction Hbefore as [|x before Hx Hbefore IH]; intros [|x' before']; simpl.
  - by intros [= -> ->].
  - intros [= <- ->]. exfalso.
    apply Forall_app in Hafter as [_ Hafter]. by inversion Hafter.
  - by intros [= -> _].
  - intros [= <- Heq]. by destruct (IH before' Heq) as (-> & -> & ->).
Qed.

Lemma no_save_no_split (events before after : list event) (b : AddressBook) :
  Forall (fun ev => is_save ev = false) events ->
  events <> before ++ SaveData b :: after.
Proof.
  intros Hall ->. apply Forall_app in Hall as [_ Hall]. by inversion Hall.
Qed.

(** The calls of [save_data] of the loop: none, or one, made on a line
    that asks to leave, with the book as it is then and at the end. *)
Lemma main_loop_saves (w : world) (st : year_style) (inputs : list string)
    (book : AddressBook) (trace : list event) :
  Forall (fun ev => is_save ev = false) trace ->
  let '(book', events, e) := main_loop w st inputs book trace in
  (Forall (fun ev => is_save ev = false) events /\ e <> Closed)
  \/ (exists before,
        Forall (fun ev => is_save ev = false) before
        /\ (exists x, x ∈ inputs /\ is_exit x = true)
        /\ ((events = before ++ [SaveData book']
             /\ exists name, e = Crashed (IOFailure name))
            \/ (events = before ++ [SaveData book';
                                    DisplayMessage (Str "Goodbye!")]
                /\ w before (SaveData book') = None
                /\ (e = Closed \/ exists name, e = Crashed (IOFailure name))))).
Proof.
  revert book trace.
  induction inputs as [|x inputs IH]; intros book trace Htrace;
    cbn [main_loop].
  - destruct (w trace (Input "Enter a command: "));
      left; (split; [|done]); apply Forall_app; by repeat constructor.
  - assert (Forall (fun ev => is_save ev = false)
              (trace ++ [Input "Enter a command: "])) as Htrace1
      by (apply Forall_app; by repeat constructor).
    destruct (w trace (Input "Enter a command: ")); [by left|].
    pose proof (main_step_spec w st x book
                  (trace ++ [Input "Enter a command: "])) as [_ Hcases].
    destruct (is_exit x) eqn:Hx.
    + rewrite Hcases. clear Hcases.
      destruct (w (trace ++ [Input "Enter a command: "]) (SaveData book))
        eqn:Hsave;
        [|destruct (w ((trace ++ [Input "Enter a command: "])
                         ++ [SaveData book])
                      (DisplayMessage (Str "Goodbye!")))];
        right; exists (trace ++ [Input "Enter a command: "]);
        (split; [done|]); (split; [exists x; split; [left|done]|]);
        [left; eauto|right; eauto..].
    + destruct Hcases as (ev & Hconsole%console_not_save & Heq).
      destruct (main_step w st x book (trace ++ [Input "Enter a command: "]))
        as [[book' trace'] nxt].
      cbn [fst] in *. unfold display in Heq. injection Heq as -> ->.
      assert (Forall (fun ev => is_save ev = false)
                ((trace ++ [Input "Enter a command: "]) ++ [ev])) as Htrace2
        by (apply Forall_app; by repeat constructor).
      destruct (w (trace ++ [Input "Enter a command: "]) ev); [by left|].
      specialize (IH book' _ Htrace2).
      destruct (main_loop w st inputs book'
                  ((trace ++ [Input "Enter a command: "]) ++ [ev]))
        as [[book'' events] e].
      destruct IH as [?|(before & Hbefore & (y & Hy & Hexit) & Hshape)];
        [by left|].
      right. exists before. split; [done|]. split; [|done].
      exists y. split; [by right|done].
Qed.

(** When every call returns, the loop ends by a line that asks to leave if
    there is one, and on the end of the input otherwise. *)
Lemma main_loop_calm (w : world) (st : year_style) (inputs : list string)
    (book : AddressBook) (trace : list event) :
  (forall t ev, w t ev = None) ->
  (main_loop w st inputs book trace).2
  = if existsb is_exit inputs then Closed else EndOfInput.
Proof.
  intros Hcalm. revert book trace.
  induction inputs as [|x inputs IH]; intros book trace; cbn [main_loop];
    rewrite Hcalm; [done|].
  pose proof (main_step_spec w st x book
                (trace ++ [Input "Enter a command: "])) as [_ Hcases].
  cbn [existsb]. destruct (is_exit x).
  - rewrite Hcases, !Hcalm. done.
  - destruct Hcases as (ev & _ & Heq).
    destruct (main_step w st x book (trace ++ [Input "Enter a command: "]))
      as [[book' trace'] nxt].
    cbn [fst] in *. unfold display in Heq. injection Heq as -> ->.
    rewrite Hcalm. apply IH.
Qed.

(** X9: in a session [save_data] is called once at most, and only on a
    line that asks to leave: the call is made with the book as all the
    lines before have left it, which is the book at the end, and after it
    comes nothing, when it raised, or the display of "Goodbye!", when it
    returned.  A session ends by [close] or [exit] only after [save_data]
    has returned and "Goodbye!" has been displayed.  When no line asks to
    leave, [save_data] is never called.  When every call of the world
    returns, the session ends by [close] or [exit] exactly when a line
    asks to leave. *)
Theorem main_saves_on_exit (w : world) (st : year_style)
    (inputs : list string) (loaded : AddressBook) :
  let '(book, events, e) := main w st loaded inputs in
  (forall before b after,
     events = before ++ SaveData b :: after ->
     b = book
     /\ Forall (fun ev => is_save ev = false) before
     /\ (exists x, x ∈ inputs /\ is_exit x = true)
     /\ (after = []
         \/ after = [DisplayMessage (Str "Goodbye!")]
            /\ w before (SaveData b) = None))
  /\ (e = Closed ->
      exists before,
        events = before ++ [SaveData book; DisplayMessage (Str "Goodbye!")]
        /\ w before (SaveData book) = None)
  /\ ((forall x, x ∈ inputs -> is_exit x = false) ->
      Forall (fun ev => is_save ev = false) events /\ e <> Closed)
  /\ ((forall t ev, w t ev = None) ->
      (e = Closed <-> exists x, x ∈ inputs /\ is_exit x = true)).
Proof.
  unfold main.
  destruct (w [] (PrintLine "Welcome to the assistant bot!")) eqn:Hwelcome.
  { split_and!.
    - intros before b after Heq. exfalso.
      eapply no_save_no_split; [|done]. by repeat constructor.
    - done.
    - intros _. split; [by repeat constructor|done].
    - intros Hcalm. by rewrite Hcalm in Hwelcome. }
  pose proof (main_loop_saves w st inputs loaded
                [PrintLine "Welcome to the assistant bot!"]
                ltac:(by repeat constructor)) as Hsaves.
  pose proof (main_loop_calm w st inputs loaded
                [PrintLine "Welcome to the assistant bot!"]) as Hcalm.
  destruct (main_loop w st inputs loaded
              [PrintLine "Welcome to the assistant bot!"])
    as [[book events] e].
  cbn [snd] in Hcalm. split_and!.
  - intros before b after Heq.
    destruct Hsaves as [[Hnone _]|(before' & Hbefore & Hexit & Hshape)].
    { exfalso. by eapply no_save_no_split. }
    destruct Hshape as [[-> _]|(-> & Hsave & _)].
    + apply (save_split_unique before' [] before after) in Heq
        as (-> & -> & ->); [|done|done]. by eauto.
    + apply (save_split_unique before' [DisplayMessage (Str "Goodbye!")]
               before after) in Heq as (-> & -> & ->);
        [|done|by repeat constructor]. by eauto 10.
  - intros ->.
    destruct Hsaves as [[_ ?]|(before & _ & _ & [(_ & name & ?)|(-> & ? & _)])];
      [done|done|eauto].
  - intros Hnoexit.
    destruct Hsaves as [?|(_ & _ & (x & Hx & Hexit) & _)]; [done|].
    by rewrite (Hnoexit x Hx) in Hexit.
  - intros Hw. rewrite (Hcalm Hw).
    destruct (existsb is_exit inputs) eqn:Hex.
    + apply existsb_exists in Hex as (x & Hx%list_elem_of_In & Hexit).
      split; [eauto|done].
    + split; [done|]. intros (x & Hx%list_elem_of_In & Hexit).
      assert (existsb is_exit inputs = true); [|congruence].
      apply existsb_exists. eauto.
Qed.

(** X10: what is typed after the first line that asks to leave is never
    read: a session with lines after such a line is the session without
    them, whatever the world answers. *)
Theorem main_stops_at_exit (w : world) (st : year_style)
    (before after : list string) (user_input : string)
    (loaded : AddressBook) :
  is_exit user_input = true ->
  main w st loaded (before ++ user_input :: after)
  = main w st loaded (before ++ [user_input]).
Proof.
  intros Hexit. unfold main.
  destruct (w [] (PrintLine "Welcome to the assistant bot!")); [done|].
  generalize [PrintLine "Welcome to the assistant bot!"]. revert loaded.
  induction before as [|x before IH]; intros book trace.
  - cbn [app main_loop].
    destruct (w trace (Input "Enter a command: ")); [done|].
    pose proof (main_step_spec w st user_input book
                  (trace ++ [Input "Enter a command: "])) as [_ Hcases].
    rewrite Hexit in Hcases. rewrite Hcases.
    destruct (w (trace ++ [Input "Enter a command: "]) (SaveData book));
      [done|].
    by destruct (w ((trace ++ [Input "Enter a command: "]) ++ [SaveData book])
                   (DisplayMessage (Str "Goodbye!"))).
  - rewrite <- !app_comm_cons. cbn [main_loop].
    destruct (w trace (Input "Enter a command: ")); [done|].
    destruct (main_step w st x book (trace ++ [Input "Enter a command: "]))
      as [[book' trace'] [| |f]]; [apply IH|done|done].
Qed.

Lemma main_stops_at_exit_witness :
  main calm Plain AddressBook_init
    ["add John 1234567890"; "close"; "add Ann 12"]
  = main calm Plain AddressBook_init ["add John 1234567890"; "close"].
Proof.
  apply (main_stops_at_exit calm Plain ["add John 1234567890"]
           ["add Ann 12"] "close" AddressBook_init).
  reflexivity.
Defined.

(** ** Phone on ASCII strings *)

Lemma char_isdigit_ascii (c : ascii) :
  (Py.code c <? 128)%N = true -> Py.char_isdigit c = Py.is_decimal c.
Proof.
  intros Hc%N.ltb_lt. unfold Py.char_isdigit.
  destruct (N.eqb_spec (Py.code c) 178); [lia|].
  destruct (N.eqb_spec (Py.code c) 179); [lia|].
  destruct (N.eqb_spec (Py.code c) 185); [lia|].
  by rewrite !orb_false_r.
Qed.

Lemma isdigit_ascii (s : string) :
  is_ascii s = true ->
  Py.all_chars Py.char_isdigit s = Py.all_chars Py.is_decimal s.
Proof.
  unfold is_ascii. induction s as [|c s IH]; simpl; [done|].
  intros [Hc Hs]%andb_true_iff. by rewrite (char_isdigit_ascii c Hc), IH.
Qed.

(** X11: on a string of ASCII characters, [Phone] succeeds exactly when the
    string has ten characters, all of them decimal digits, and then keeps
    the string as it is; on every other ASCII string it fails with "Phone
    number must be a 10-digit number.". *)
Theorem Phone_init_ascii (value : string) :
  is_ascii value = true ->
  Phone_init value
  = if (Py.len value =? 10)%nat && Py.all_chars Py.is_decimal value
    then Return (mkPhone value)
    else Raise (ValueError "Phone number must be a 10-digit number.").
Proof.
  intros Hascii. rewrite Phone_init_spec.
  destruct (Py.len value =? 10)%nat eqn:Hlen; [|done]. simpl.
  destruct value as [|c s]; [done|]. unfold Py.isdigit.
  by rewrite (isdigit_ascii _ Hascii).
Qed.

Lemma Phone_init_ascii_witness :
  Phone_init "12345abcde"
  = Raise (ValueError "Phone number must be a 10-digit number.").
Proof. apply (Phone_init_ascii "12345abcde"). reflexivity. Defined.

(** ** From a date to its text and back *)

Lemma forallb_seqZ (P : Z -> bool) (lo len : Z) :
  forallb P (seqZ lo len) = true ->
  forall n, (lo <= n < lo + len)%Z -> P n = true.
Proof.
  intros Hall n Hn. rewrite forallb_forall in Hall. apply Hall.
  apply list_elem_of_In, elem_of_seqZ. lia.
Qed.

Lemma int_zfill2 (n : Z) :
  (0 <= n < 100)%Z -> int (Py.zfill2 n) = Return n.
Proof.
  intros Hn.
  pose proof (forallb_seqZ
    (fun n => match int (Py.zfill2 n) with
              | Return v => (v =? n)%Z
              | Raise _ => false
              end) 0 100 ltac:(by vm_compute) n ltac:(lia)) as H.
  simpl in H. destruct (int (Py.zfill2 n)) as [v|]; [|done].
  by apply Z.eqb_eq in H as ->.
Qed.

Lemma int_zfill4 (n : Z) :
  (0 <= n < 10000)%Z -> int (Py.zfill4 n) = Return n.
Proof.
  intros Hn.
  pose proof (forallb_seqZ
    (fun n => match int (Py.zfill4 n) with
              | Return v => (v =? n)%Z
              | Raise _ => false
              end) 0 10000 ltac:(by vm_compute) n ltac:(lia)) as H.
  simpl in H. destruct (int (Py.zfill4 n)) as [v|]; [|done].
  by apply Z.eqb_eq in H as ->.
Qed.

Lemma day_text_zfill2 (n : Z) :
  (1 <= n <= 31)%Z -> day_text (Py.zfill2 n) = true.
Proof.
  intros Hn.
  apply (forallb_seqZ (fun n => day_text (Py.zfill2 n)) 1 31
           ltac:(by vm_compute) n ltac:(lia)).
Qed.

Lemma month_text_zfill2 (n : Z) :
  (1 <= n <= 12)%Z -> month_text (Py.zfill2 n) = true.
Proof.
  intros Hn.
  apply (forallb_seqZ (fun n => month_text (Py.zfill2 n)) 1 12
           ltac:(by vm_compute) n ltac:(lia)).
Qed.

Lemma year_text_zfill4 (n : Z) :
  (0 <= n < 10000)%Z -> year_text (Py.zfill4 n) = true.
Proof.
  intros Hn.
  apply (forallb_seqZ (fun n => year_text (Py.zfill4 n)) 0 10000
           ltac:(by vm_compute) n ltac:(lia)).
Qed.

Lemma no_dot_zfill2 (n : Z) :
  (0 <= n < 100)%Z -> no_dot (Py.zfill2 n) = true.
Proof.
  intros Hn.
  apply (forallb_seqZ (fun n => no_dot (Py.zfill2 n)) 0 100
           ltac:(by vm_compute) n ltac:(lia)).
Qed.

Lemma is_decimal_digit_char (k : Z) :
  (0 <= k <= 9)%Z -> Py.is_decimal (Py.digit_char k) = true.
Proof.
  intros Hk.
  apply (forallb_seqZ (fun k => Py.is_decimal (Py.digit_char k)) 0 10
           ltac:(by vm_compute) k ltac:(lia)).
Qed.

Lemma days_in_month_le (y m : Z) :
  (1 <= m <= 12)%Z -> (days_in_month y m <= 31)%Z.
Proof.
  intros Hm. unfold days_in_month.
  destruct ((m =? 2)%Z && is_leap y); [lia|].
  assert (m = 1 \/ m = 2 \/ m = 3 \/ m = 4 \/ m = 5 \/ m = 6 \/ m = 7
          \/ m = 8 \/ m = 9 \/ m = 10 \/ m = 11 \/ m = 12)%Z as Hcases by lia.
  destruct_or!; subst m; simpl; lia.
Qed.

Lemma format_Y_four (st : year_style) (y : Z) :
  st = FourDigits \/ (1000 <= y)%Z -> format_Y st y = Py.zfill4 y.
Proof.
  intros [->|Hy]; [done|]. destruct st; [done|]. unfold format_Y.
  destruct (y <? 10)%Z eqn:H1; [lia|].
  destruct (y <? 100)%Z eqn:H2; [lia|].
  destruct (y <? 1000)%Z eqn:H3; [lia|]. done.
Qed.

Lemma Birthday_init_of_valid (st : year_style) (dt : datetime) :
  valid_date dt ->
  st = FourDigits \/ (1000 <= year dt)%Z ->
  Birthday_init (strftime st dt) = Return (mkBirthday dt).
Proof.
  intros (Hy & Hm & Hd) Hst.
  pose proof (days_in_month_le (year dt) (month dt) Hm) as Hdim.
  apply Birthday_init_Return, strptime_Return. simpl.
  exists (Py.zfill2 (day dt)), (Py.zfill2 (month dt)), (Py.zfill4 (year dt)).
  split_and!.
  - unfold strftime. by rewrite format_Y_four.
  - apply day_text_zfill2. lia.
  - by apply month_text_zfill2.
  - apply year_text_zfill4. lia.
  - apply int_zfill2. lia.
  - apply int_zfill2. lia.
  - apply int_zfill4. lia.
  - done.
Qed.

(** X12: what [strftime] writes for a date of the calendar has the form
    DD.MM.YYYY, [Birthday] takes it, and it stores that very date: from
    the year 1000 on, and for every year where the year is written on four
    digits. *)
Theorem Birthday_init_strftime (st : year_style) (dt : datetime) :
  valid_date dt ->
  st = FourDigits \/ (1000 <= year dt)%Z ->
  strict_form (strftime st dt) = true
  /\ Birthday_init (strftime st dt) = Return (mkBirthday dt).
Proof.
  intros Hvalid Hst. split; [|by apply Birthday_init_of_valid].
  destruct Hvalid as (Hy & Hm & Hd).
  pose proof (days_in_month_le (year dt) (month dt) Hm) as Hdim.
  unfold strftime. rewrite format_Y_four by done.
  unfold Py.zfill2, Py.zfill4, strict_form. cbn [String.append].
  rewrite !Ascii.eqb_refl, !andb_true_r, !andb_true_iff.
  split_and!; apply is_decimal_digit_char; Z.div_mod_to_equations; lia.
Qed.

Lemma Birthday_init_strftime_witness :
  Birthday_init (strftime Plain (mkDate 2024 2 29))
  = Return (mkBirthday (mkDate 2024 2 29)).
Proof.
  apply (Birthday_init_strftime Plain (mkDate 2024 2 29)).
  - unfold valid_date. simpl. vm_compute. intuition discriminate.
  - right. simpl. lia.
Defined.

Lemma strptime_digits (d m y : Z) (dt : datetime) :
  (0 <= d < 100)%Z -> (0 <= m < 100)%Z -> (0 <= y < 10000)%Z ->
  strptime (Py.zfill2 d +:+ "." +:+ Py.zfill2 m +:+ "." +:+ Py.zfill4 y)
  = Return dt ->
  dt = mkDate y m d /\ valid_date dt.
Proof.
  intros Hd Hm Hy
    (d' & m' & y' & Heq & Hd' & Hm' & Hy' & Hdv & Hmv & Hyv & Hvalid)%strptime_Return.
  apply split_at_dot in Heq as [<- Heq];
    [|by apply no_dot_zfill2|by apply day_text_no_dot].
  apply split_at_dot in Heq as [<- <-];
    [|by apply no_dot_zfill2|by apply month_text_no_dot].
  rewrite int_zfill2 in Hdv, Hmv by done. rewrite int_zfill4 in Hyv by done.
  split; [|done]. destruct dt. simpl in *. congruence.
Qed.

(** X13: a text DD.MM.YYYY, written with the digits of a day, a month and
    a year, is taken by [Birthday] exactly when day, month and year make a
    date of the calendar (year from 1 on, month from 1 to 12, day from 1 to
    the length of the month in that year), which is then the date stored;
    otherwise it is refused with the message of [Birthday]. *)
Theorem Birthday_init_digits (d m y : Z) :
  (0 <= d < 100)%Z -> (0 <= m < 100)%Z -> (0 <= y < 10000)%Z ->
  let value := Py.zfill2 d +:+ "." +:+ Py.zfill2 m +:+ "." +:+ Py.zfill4 y in
  (valid_date (mkDate y m d) ->
   Birthday_init value = Return (mkBirthday (mkDate y m d)))
  /\ (~ valid_date (mkDate y m d) ->
      Birthday_init value
      = Raise (ValueError "Invalid date format. Use DD.MM.YYYY")).
Proof.
  intros Hd Hm Hy value. split.
  - intros Hvalid.
    apply (Birthday_init_of_valid FourDigits (mkDate y m d) Hvalid).
    by left.
  - intros Hinvalid.
    destruct (Birthday_init value) as [b|e] eqn:Hb;
      [|by rewrite (Birthday_init_Raise _ _ Hb)].
    exfalso. apply Birthday_init_Return in Hb.
    apply strptime_digits in Hb as [Heq Hvalid]; [|done..].
    by rewrite Heq in Hvalid.
Qed.

Lemma Birthday_init_digits_witness :
  Birthday_init "31.04.2001"
  = Raise (ValueError "Invalid date format. Use DD.MM.YYYY").
Proof.
  apply (proj2 (Birthday_init_digits 31 4 2001 ltac:(lia) ltac:(lia)
                  ltac:(lia))).
  unfold valid_date. vm_compute. intros (_ & _ & _ & H). by apply H.
Defined.

(** X14: the 29th of February of a year from 1 to 9999 is taken by
    [Birthday] exactly when the year is a leap year: divisible by 4 and
    not by 100, or divisible by 400. *)
Theorem Birthday_init_leap_day (y : Z) :
  (1 <= y <= 9999)%Z ->
  (exists b, Birthday_init ("29.02." +:+ Py.zfill4 y) = Return b)
  <-> (y mod 4 = 0 /\ (y mod 100 <> 0 \/ y mod 400 = 0))%Z.
Proof.
  intros Hy.
  assert (valid_date (mkDate y 2 29) <-> is_leap y = true) as Hvalid.
  { unfold valid_date, days_in_month. simpl.
    destruct (is_leap y); simpl; split; try done; try lia. }
  assert (is_leap y = true
          <-> (y mod 4 = 0 /\ (y mod 100 <> 0 \/ y mod 400 = 0))%Z) as <-.
  { unfold is_leap.
    rewrite andb_true_iff, orb_true_iff, negb_true_iff, !Z.eqb_eq, Z.eqb_neq.
    done. }
  rewrite <- Hvalid.
  change ("29.02." +:+ Py.zfill4 y)
    with (Py.zfill2 29 +:+ "." +:+ Py.zfill2 2 +:+ "." +:+ Py.zfill4 y).
  split.
  - intros [b Hb%Birthday_init_Return].
    apply strptime_digits in Hb as [Heq Hv]; [|lia..].
    by rewrite Heq in Hv.
  - intros Hv. eexists.
    apply (Birthday_init_of_valid FourDigits (mkDate y 2 29) Hv). by left.
Qed.

Lemma Birthday_init_leap_day_witness :
  exists b, Birthday_init "29.02.2000" = Return b.
Proof.
  apply (proj2 (Birthday_init_leap_day 2000 ltac:(lia))).
  vm_compute. split; [reflexivity|]. right. reflexivity.
Defined.

(** ** What is added can be looked up *)

Lemma find_from_names (k : nat) (l l' : list RecordT) (name : string) :
  record_name <$> l = record_name <$> l' ->
  find_from k l name = find_from k l' name.
Proof.
  revert k l'. induction l as [|c l IH]; intros k [|c' l']; try done.
  simpl. intros [= Hc Hl]. rewrite Hc. by rewrite (IH (S k) l' Hl).
Qed.

Lemma find_from_with_record (r : ref) (rec rec' : RecordT)
    (book : AddressBook) (name : string) :
  contacts book !! r = Some rec ->
  record_name rec' = record_name rec ->
  find_from 0 (contacts (with_record r rec' book)) name
  = find_from 0 (contacts book) name.
Proof.
  intros Hr Hname. apply find_from_names. simpl. unfold ref in *.
  rewrite list_fmap_insert, Hname.
  rewrite list_insert_id; [done|]. rewrite list_lookup_fmap. by rewrite Hr.
Qed.

Lemma show_phone_reply (name : string) (book : AddressBook) :
  show_phone [name] book
  = (book,
     match find_from 0 (contacts book) name with
     | Some _ =>
         match phones_of name book with
         | _ :: _ =>
             Str (name +:+ "'s phone number is: "
                  +:+ Py.join ", " (phone_value <$> phones_of name book))
         | [] => Str (name +:+ " doesn't have a phone number set.")
         end
     | None => Str ("Contact " +:+ name +:+ " not found.")
     end).
Proof.
  unfold phones_of. unfold_handler.
  destruct (find_from 0 (contacts book) name) as [r|]; [|done].
  by destruct (record_phones (contacts book !!! r)).
Qed.

Lemma show_birthday_reply (st : year_style) (name : string)
    (book : AddressBook) :
  show_birthday st [name] book
  = (book,
     match find_from 0 (contacts book) name with
     | Some _ =>
         match birthday_of name book with
         | Some b =>
             Str (name +:+ "'s birthday is: "
                  +:+ strftime st (birthday_value b))
         | None => Str (name +:+ " doesn't have a birthday set.")
         end
     | None => Str ("Contact " +:+ name +:+ " not found.")
     end).
Proof.
  unfold birthday_of. unfold_handler.
  destruct (find_from 0 (contacts book) name) as [r|]; [|done].
  by destruct (record_birthday (contacts book !!! r)).
Qed.

(** After [add] of a phone that [Phone] takes and that is not held under
    the name: the record under the name, in any case, and its phones. *)
Lemma add_contact_after (book : AddressBook) (name phone name' : string)
    (rest : list string) (p : Phone) :
  Phone_init phone = Return p ->
  (forall q, q ∈ phones_of name book -> phone_value q <> phone) ->
  Py.lower name' = Py.lower name ->
  let book' := fst (add_contact (name :: phone :: rest) book) in
  is_Some (find_from 0 (contacts book') name')
  /\ phones_of name' book' = phones_of name book ++ [mkPhone phone].
Proof.
  intros Hp Hnew Hlower book'. subst book'. unfold phones_of, ref in *.
  rewrite !(find_from_lower _ _ name' name Hlower).
  pose proof (valid_phone_nonempty _ _ Hp) as Hne.
  destruct (find_from 0 (contacts book) name) as [r|] eqn:Hfind.
  - destruct (find_from_lookup _ _ _ Hfind) as (rec & Hr & _).
    rewrite (list_lookup_total_correct _ _ _ Hr) in *.
    rewrite (add_contact_found _ _ _ _ _ _ Hfind Hr Hne).
    rewrite (Record_add_phone_new _ _ _ Hnew Hp). cbn [fst].
    rewrite (find_from_with_record r rec
               (set_phones (record_phones rec ++ [mkPhone phone]) rec)
               book name Hr eq_refl), Hfind.
    split; [done|].
    by rewrite (list_lookup_total_correct _ _ _
                  (with_record_lookup _ _ _ _ Hr)).
  - rewrite (add_contact_new _ _ _ _ Hfind Hne).
    erewrite Record_add_phone_new; [| |done]; [|by intros q Hq%elem_of_nil].
    cbn [fst contacts].
    rewrite find_from_app_new; [|by apply (find_from_None 0)|done].
    split; [done|].
    unfold ref. rewrite lookup_total_app_r, Nat.sub_diag by lia. done.
Qed.

(** X15: after [add] of a phone that [Phone] takes and that is not held
    under the name, [phone] on that name, in any case, shows the phones
    held before, in their order, and then the new one. *)
Theorem add_then_show_phone (book : AddressBook) (name phone name' : string)
    (rest : list string) (p : Phone) :
  Phone_init phone = Return p ->
  (forall q, q ∈ phones_of name book -> phone_value q <> phone) ->
  Py.lower name' = Py.lower name ->
  let book' := fst (add_contact (name :: phone :: rest) book) in
  show_phone [name'] book'
  = (book',
     Str (name' +:+ "'s phone number is: "
          +:+ Py.join ", "
                ((phone_value <$> phones_of name book) ++ [phone]))).
Proof.
  intros Hp Hnew Hlower book'.
  destruct (add_contact_after book name phone name' rest p Hp Hnew Hlower)
    as [[r Hfind] Hphones].
  fold book' in Hfind, Hphones.
  rewrite show_phone_reply, Hfind, Hphones, fmap_app.
  by destruct (phones_of name book).
Qed.

Lemma add_then_show_phone_witness :
  show_phone ["JOHN"]
    (fst (add_contact ["John"; "0987654321"]
            (mkBook [set_phones [mkPhone "1234567890"] (Record_init "john")])))
  = (mkBook [set_phones [mkPhone "1234567890"; mkPhone "0987654321"]
               (Record_init "john")],
     Str "JOHN's phone number is: 1234567890, 0987654321").
Proof.
  apply (add_then_show_phone
           (mkBook [set_phones [mkPhone "1234567890"] (Record_init "john")])
           "John" "0987654321" "JOHN" [] (mkPhone "0987654321") eq_refl);
    [|reflexivity].
  by intros q [->|Hq%elem_of_nil]%elem_of_cons.
Defined.

(** X16: [add] of a phone that was just added under the name, in any case
    of the name, answers "Error: Phone number already exists." and leaves
    the book as it is. *)
Theorem add_twice_refused (book : AddressBook) (name phone name' : string)
    (rest rest' : list string) (p : Phone) :
  Phone_init phone = Return p ->
  (forall q, q ∈ phones_of name book -> phone_value q <> phone) ->
  Py.lower name' = Py.lower name ->
  let book' := fst (add_contact (name :: phone :: rest) book) in
  add_contact (name' :: phone :: rest') book'
  = (book', Str "Error: Phone number already exists.").
Proof.
  intros Hp Hnew Hlower book'.
  destruct (add_contact_after book name phone name' rest p Hp Hnew Hlower)
    as [[r Hfind] Hphones].
  fold book' in Hfind, Hphones.
  destruct (find_from_lookup _ _ _ Hfind) as (rec & Hr & _).
  unfold phones_of in Hphones. rewrite Hfind in Hphones.
  rewrite (list_lookup_total_correct _ _ _ Hr) in Hphones.
  rewrite (add_contact_found _ _ _ _ _ _ Hfind Hr
             (valid_phone_nonempty _ _ Hp)).
  rewrite Record_add_phone_duplicate.
  - cbn [fst snd exn_str]. by rewrite with_record_same.
  - exists (mkPhone phone). split; [|done].
    rewrite Hphones. apply elem_of_app. right. by left.
Qed.

Lemma add_twice_refused_witness :
  add_contact ["JOHN"; "1234567890"]
    (fst (add_contact ["John"; "1234567890"] AddressBook_init))
  = (mkBook [set_phones [mkPhone "1234567890"] (Record_init "John")],
     Str "Error: Phone number already exists.").
Proof.
  apply (add_twice_refused AddressBook_init "John" "1234567890" "JOHN" [] []
           (mkPhone "1234567890") eq_refl); [|reflexivity].
  by intros q Hq%elem_of_nil.
Defined.

(** X17: after [change] to a phone that [Phone] takes, on a name that
    [find] finds, [phone] on that name, in any case, shows the new phone
    and no other; and the same [change] once more leaves the book as it
    is. *)
Theorem change_then_show_phone (book : AddressBook)
    (name new_phone name' : string) (p : Phone) :
  Phone_init new_phone = Return p ->
  is_Some (find_from 0 (contacts book) name) ->
  Py.lower name' = Py.lower name ->
  let book' := fst (change_contact [name; new_phone] book) in
  show_phone [name'] book'
  = (book', Str (name' +:+ "'s phone number is: " +:+ new_phone))
  /\ fst (change_contact [name'; new_phone] book') = book'.
Proof.
  intros Hp [r Hfind] Hlower book'.
  destruct (find_from_lookup _ _ _ Hfind) as (rec & Hr & _).
  assert (book' = with_record r (set_phones [mkPhone new_phone] rec) book)
    as ->.
  { subst book'. rewrite (change_contact_found _ _ _ _ _ Hfind Hr).
    erewrite Record_add_phone_new; [done| |done].
    by intros q Hq%elem_of_nil. }
  assert (find_from 0
            (contacts (with_record r (set_phones [mkPhone new_phone] rec) book))
            name' = Some r) as Hfind'.
  { rewrite (find_from_lower _ _ name' name Hlower).
    by rewrite (find_from_with_record r rec
                  (set_phones [mkPhone new_phone] rec) book name Hr eq_refl). }
  pose proof (with_record_lookup r rec (set_phones [mkPhone new_phone] rec)
                book Hr) as Hr'.
  split.
  - rewrite show_phone_reply. unfold phones_of. rewrite Hfind'.
    unfold ref in *. by rewrite (list_lookup_total_correct _ _ _ Hr').
  - rewrite (change_contact_found _ _ _ _ _ Hfind' Hr').
    erewrite Record_add_phone_new; [| |done]; [|by intros q Hq%elem_of_nil].
    cbn [fst]. by rewrite with_record_twice.
Qed.

Lemma change_then_show_phone_witness :
  show_phone ["john"]
    (fst (change_contact ["John"; "5555555555"]
            (mkBook [set_phones [mkPhone "1234567890"; mkPhone "0987654321"]
                       (Record_init "John")])))
  = (mkBook [set_phones [mkPhone "5555555555"] (Record_init "John")],
     Str "john's phone number is: 5555555555").
Proof.
  apply (change_then_show_phone
           (mkBook [set_phones [mkPhone "1234567890"; mkPhone "0987654321"]
                      (Record_init "John")])
           "John" "5555555555" "john" (mkPhone "5555555555") eq_refl);
    [by eexists|reflexivity].
Defined.

(** X18: after [add-birthday] of a date of the form DD.MM.YYYY that
    [Birthday] takes, on a name that [find] finds, [show-birthday] on that
    name, in any case, shows the date as it was typed, whatever birthday
    was held before (from the year 1000 on, and for every year where the
    year is written on four digits); the phones under the name are as
    they were. *)
Theorem add_birthday_then_show (st : year_style) (book : AddressBook)
    (name date name' : string) (b : Birthday) :
  strict_form date = true ->
  Birthday_init date = Return b ->
  st = FourDigits \/ (1000 <= year (birthday_value b))%Z ->
  is_Some (find_from 0 (contacts book) name) ->
  Py.lower name' = Py.lower name ->
  let book' := fst (add_birthday [name; date] book) in
  show_birthday st [name'] book'
  = (book', Str (name' +:+ "'s birthday is: " +:+ date))
  /\ phones_of name' book' = phones_of name book.
Proof.
  intros Hform Hb Hst [r Hfind] Hlower book'.
  destruct (find_from_lookup _ _ _ Hfind) as (rec & Hr & _).
  assert (book' = with_record r (set_birthday (Some b) rec) book) as ->.
  { subst book'. by rewrite (add_birthday_found _ _ _ _ _ Hfind Hr), Hb. }
  assert (find_from 0
            (contacts (with_record r (set_birthday (Some b) rec) book))
            name' = Some r) as Hfind'.
  { rewrite (find_from_lower _ _ name' name Hlower).
    by rewrite (find_from_with_record r rec (set_birthday (Some b) rec)
                  book name Hr eq_refl). }
  pose proof (with_record_lookup r rec (set_birthday (Some b) rec) book Hr)
    as Hr'.
  unfold ref in *. split.
  - rewrite show_birthday_reply. unfold birthday_of. rewrite Hfind'.
    rewrite (list_lookup_total_correct _ _ _ Hr'). simpl.
    apply Birthday_init_Return in Hb.
    by rewrite (strftime_strptime st date _ Hform Hb Hst).
  - unfold phones_of. rewrite Hfind', Hfind.
    by rewrite (list_lookup_total_correct _ _ _ Hr'),
         (list_lookup_total_correct _ _ _ Hr).
Qed.

Lemma add_birthday_then_show_witness :
  show_birthday Plain ["JOHN"]
    (fst (add_birthday ["John"; "01.02.1990"]
            (mkBook [set_birthday (Some (mkBirthday (mkDate 2000 1 1)))
                       (Record_init "John")])))
  = (mkBook [set_birthday (Some (mkBirthday (mkDate 1990 2 1)))
               (Record_init "John")],
     Str "JOHN's birthday is: 01.02.1990").
Proof.
  apply (add_birthday_then_show Plain
           (mkBook [set_birthday (Some (mkBirthday (mkDate 2000 1 1)))
                      (Record_init "John")])
           "John" "01.02.1990" "JOHN" (mkBirthday (mkDate 1990 2 1))
           eq_refl eq_refl);
    [right; simpl; lia|by eexists|reflexivity].
Defined.

(** ** Failures that leave the book as it was *)

(** X19: when [add-birthday] fails, whatever its arguments, and when [add]
    fails on a name that [find] finds, the answer is "Error: " and the
    message, and the book is exactly as it was before. *)
Theorem failed_handlers_unchanged (args : list string) (book : AddressBook)
    (e : exn) :
  (snd (add_birthday_func args book) = Raise e ->
   add_birthday args book = (book, Str ("Error: " +:+ exn_str e)))
  /\ (forall name phone rest r,
        args = name :: phone :: rest ->
        find_from 0 (contacts book) name = Some r ->
        snd (add_contact_func args book) = Raise e ->
        add_contact args book = (book, Str ("Error: " +:+ exn_str e))).
Proof.
  split.
  - intros He. pose proof (add_birthday_failure_unchanged _ _ _ He) as Hbook.
    unfold add_birthday, input_error.
    destruct (add_birthday_func args book) as [book' o]. simpl in *.
    by subst.
  - intros name phone rest r -> Hfind He.
    pose proof (add_contact_failure_unchanged_found _ _ _ _ _ _ Hfind He)
      as Hbook.
    unfold add_contact, input_error.
    destruct (add_contact_func (name :: phone :: rest) book) as [book' o].
    simpl in *. by subst.
Qed.

Lemma failed_handlers_unchanged_witness :
  add_birthday ["John"; "1990-02-01"]
    (mkBook [set_phones [mkPhone "1234567890"] (Record_init "John")])
  = (mkBook [set_phones [mkPhone "1234567890"] (Record_init "John")],
     Str "Error: Invalid date format. Use DD.MM.YYYY")
  /\ add_contact ["john"; "1234567890"]
       (mkBook [set_phones [mkPhone "1234567890"] (Record_init "John")])
     = (mkBook [set_phones [mkPhone "1234567890"] (Record_init "John")],
        Str "Error: Phone number already exists.").
Proof.
  split.
  - apply (proj1 (failed_handlers_unchanged ["John"; "1990-02-01"]
                    (mkBook [set_phones [mkPhone "1234567890"]
                               (Record_init "John")])
                    (ValueError "Invalid date format. Use DD.MM.YYYY"))).
    vm_compute. reflexivity.
  - apply (proj2 (failed_handlers_unchanged ["john"; "1234567890"]
                    (mkBook [set_phones [mkPhone "1234567890"]
                               (Record_init "John")])
                    (ValueError "Phone number already exists."))
             "john" "1234567890" [] 0 eq_refl eq_refl).
    vm_compute. reflexivity.
Defined.
